(** * Export-This: a shallow embedding of [src/extension.ts]

    The extension has three pieces of decision logic, all driven by editor
    events: [findIndex] (the upward walk that looks for an [index.ts]),
    [getRelativePath] (the module specifier of the active file relative to
    that [index.ts]) and [refreshDiagnostics] (the line scanner that
    publishes the "Export file" hints).  The export command glues the first
    two together and appends a re-export statement to the barrel file.

    The embedding keeps the shape of the TypeScript:
    - JavaScript strings are [string]; [indexOf] returns [option nat], with
      [None] for JavaScript's [-1];
    - the parts of Node's [path.posix] and of [vscode.Uri] that the
      extension calls are modelled in the modules [posix] and on the
      record [Uri];
    - the editor host (workspace folders, active editor, file system,
      diagnostic collection, error messages shown) is the record [Host];
      the [async] functions are state-passing computations over it that
      either return or reject, each handler running to completion before
      the next event is dispatched. *)

From Stdlib Require Import String Ascii ZArith.
From Equations Require Import Equations.
From stdpp Require Import gmap strings list fin_maps.

Set Default Proof Using "Type".

(** ** JavaScript string primitives *)

Module JsString.

(** [s.indexOf(pat)]: position of the first occurrence, [None] for -1. *)
Definition indexOf (s pat : string) : option nat := String.index 0 pat s.

(** [s.indexOf(pat, from)]. *)
Definition indexOfFrom (s pat : string) (from : nat) : option nat :=
  String.index from pat s.

(** [s.includes(pat)]. *)
Definition includes (s pat : string) : bool :=
  match indexOf s pat with Some _ => true | None => false end.

(** [s.slice(a, b)] for indices [0 <= a], [0 <= b]. *)
Definition slice (s : string) (a b : nat) : string :=
  String.substring a (b - a) s.

(** [s.slice(a)]. *)
Definition sliceFrom (s : string) (a : nat) : string :=
  String.substring a (String.length s - a) s.

(** [s.replace(pat, rep)] with a string pattern: only the first
    occurrence of [pat] is replaced.  The extension passes the empty
    replacement, so the [$]-patterns of the replacement play no role. *)
Definition replace (s pat rep : string) : string :=
  match indexOf s pat with
  | None => s
  | Some i => slice s 0 i +:+ rep +:+ sliceFrom s (i + String.length pat)
  end.

(** [s.split('/')]. *)
Fixpoint splitSlash (s : string) : list string :=
  match s with
  | EmptyString => [EmptyString]
  | String c s' =>
      if Ascii.eqb c "/" then EmptyString :: splitSlash s'
      else match splitSlash s' with
           | [] => [String c EmptyString]
           | seg :: segs => String c seg :: segs
           end
  end.

(** [segs.join('/')]. *)
Definition joinSlash (segs : list string) : string := String.concat "/" segs.

Definition startsWithSlash (s : string) : bool :=
  match s with String c _ => Ascii.eqb c "/" | EmptyString => false end.

Fixpoint endsWithSlash (s : string) : bool :=
  match s with
  | EmptyString => false
  | String c EmptyString => Ascii.eqb c "/"
  | String _ s' => endsWithSlash s'
  end.

End JsString.

(** ** Node's [path.posix] *)

Module posix.
Import JsString.

(** [normalizeString]: the segments of the path are consumed from left
    to right; an empty segment and [.] are dropped, [..] removes the last
    kept segment unless that one is itself [..] (or there is none), in
    which case it is kept only when [allowAboveRoot].  [res] holds the
    kept segments, last one first. *)
Definition normalizeStep (allowAboveRoot : bool) (res : list string)
    (seg : string) : list string :=
  if decide (seg = "" ∨ seg = ".") then res
  else if decide (seg = "..") then
    match res with
    | top :: rest =>
        if decide (top = "..")
        then (if allowAboveRoot then ".." :: res else res)
        else rest
    | [] => if allowAboveRoot then [".."] else []
    end
  else seg :: res.

Definition normalizeString (path : string) (allowAboveRoot : bool) : string :=
  joinSlash (rev (fold_left (normalizeStep allowAboveRoot) (splitSlash path) [])).

(** [posix.normalize(path)]. *)
Definition normalize (path : string) : string :=
  if decide (path = "") then "."
  else
    let isAbsolute := startsWithSlash path in
    let trailingSeparator := endsWithSlash path in
    let p := normalizeString path (negb isAbsolute) in
    if decide (p = "") then
      (if isAbsolute then "/" else if trailingSeparator then "./" else ".")
    else
      let p' := if trailingSeparator then p +:+ "/" else p in
      if isAbsolute then "/" +:+ p' else p'.

(** [posix.join(...args)]: the non-empty arguments, joined by [/], then
    normalized. *)
Definition join (args : list string) : string :=
  match filter (λ a, a ≠ "") args with
  | [] => "."
  | parts => normalize (joinSlash parts)
  end.

(** The backward scan of [posix.dirname]: [rchars] holds [path[i]],
    [path[i-1]], ..., and the scan stops before index 0.  The result is
    [end], [None] standing for -1. *)
Fixpoint dirnameScan (rchars : list ascii) (i : nat) (matchedSlash : bool)
    : option nat :=
  match rchars, i with
  | c :: rest, S i' =>
      if Ascii.eqb c "/" then
        (if matchedSlash then dirnameScan rest i' true else Some i)
      else dirnameScan rest i' false
  | _, _ => None
  end.

(** [posix.dirname(path)]. *)
Definition dirname (path : string) : string :=
  if decide (path = "") then "."
  else
    let hasRoot := startsWithSlash path in
    match dirnameScan (rev (list_ascii_of_string path))
                      (String.length path - 1) true with
    | None => if hasRoot then "/" else "."
    | Some e => if hasRoot && (e =? 1) then "//" else slice path 0 e
    end.

(** Loop state of [posix.basename]; the indices are [Z] because the
    code uses -1 as "unset". *)
Record BasenameState := mkBasenameState {
  bs_start : Z;
  bs_end : Z;
  bs_matchedSlash : bool;
  bs_extIdx : Z;
  bs_firstNonSlashEnd : Z
}.

Definition charCodeAt (s : string) (i : Z) : option ascii :=
  if (i <? 0)%Z then None else String.get (Z.to_nat i) s.

(** The backward scan of [posix.basename(path, suffix)]: [rchars] holds
    [path[i]], [path[i-1]], ..., down to index 0; [i] is the number of
    characters left after the head. *)
Fixpoint basenameSuffixScan (suffix : string) (rchars : list ascii)
    (st : BasenameState) : BasenameState :=
  match rchars with
  | [] => st
  | code :: rest =>
      let i := Z.of_nat (length rest) in
      if Ascii.eqb code "/" then
        if negb (bs_matchedSlash st) then
          mkBasenameState (i + 1) (bs_end st) (bs_matchedSlash st)
                          (bs_extIdx st) (bs_firstNonSlashEnd st)
        else basenameSuffixScan suffix rest st
      else
        let st1 :=
          if (bs_firstNonSlashEnd st =? -1)%Z then
            mkBasenameState (bs_start st) (bs_end st) false
                            (bs_extIdx st) (i + 1)
          else st in
        let st2 :=
          if (0 <=? bs_extIdx st1)%Z then
            if decide (Some code = charCodeAt suffix (bs_extIdx st1)) then
              let extIdx' := (bs_extIdx st1 - 1)%Z in
              if (extIdx' =? -1)%Z then
                mkBasenameState (bs_start st1) i (bs_matchedSlash st1)
                                extIdx' (bs_firstNonSlashEnd st1)
              else
                mkBasenameState (bs_start st1) (bs_end st1)
                                (bs_matchedSlash st1) extIdx'
                                (bs_firstNonSlashEnd st1)
            else
              mkBasenameState (bs_start st1) (bs_firstNonSlashEnd st1)
                              (bs_matchedSlash st1) (-1)
                              (bs_firstNonSlashEnd st1)
          else st1 in
        basenameSuffixScan suffix rest st2
  end.

(** The scan of [posix.basename(path)] when no suffix is given. *)
Fixpoint basenameScan (rchars : list ascii) (st : BasenameState)
    : BasenameState :=
  match rchars with
  | [] => st
  | code :: rest =>
      let i := Z.of_nat (length rest) in
      if Ascii.eqb code "/" then
        if negb (bs_matchedSlash st) then
          mkBasenameState (i + 1) (bs_end st) (bs_matchedSlash st)
                          (bs_extIdx st) (bs_firstNonSlashEnd st)
        else basenameScan rest st
      else if (bs_end st =? -1)%Z then
        basenameScan rest
          (mkBasenameState (bs_start st) (i + 1) false
                           (bs_extIdx st) (bs_firstNonSlashEnd st))
      else basenameScan rest st
  end.

(** [path.slice(start, end)] on the indices the scans produce; a
    negative [end] counts from the end of the string, as in
    JavaScript. *)
Definition sliceZ (s : string) (a b : Z) : string :=
  let len := Z.of_nat (String.length s) in
  let clamp x := if (x <? 0)%Z then Z.max (len + x) 0 else Z.min x len in
  slice s (Z.to_nat (clamp a)) (Z.to_nat (clamp b)).

(** [posix.basename(path, suffix)]; [suffix = None] is the call with one
    argument. *)
Definition basename (path : string) (suffix : option string) : string :=
  let init := mkBasenameState 0 (-1) true 0 (-1) in
  let rchars := rev (list_ascii_of_string path) in
  let plain :=
    let st := basenameScan rchars init in
    if (bs_end st =? -1)%Z then "" else sliceZ path (bs_start st) (bs_end st) in
  match suffix with
  | None => plain
  | Some suffix =>
      if (0 <? String.length suffix) && (String.length suffix <=? String.length path)
      then
        if decide (suffix = path) then ""
        else
          let st := basenameSuffixScan suffix rchars
                      (mkBasenameState 0 (-1) true
                         (Z.of_nat (String.length suffix) - 1) (-1)) in
          let e :=
            if (bs_start st =? bs_end st)%Z then bs_firstNonSlashEnd st
            else if (bs_end st =? -1)%Z then Z.of_nat (String.length path)
            else bs_end st in
          sliceZ path (bs_start st) e
      else plain
  end.

End posix.

(** ** [vscode.Uri] *)

(** Query and fragment are always empty for the URIs the extension builds
    and are left out. *)
Record Uri := mkUri {
  scheme : string;
  authority : string;
  path : string
}.

Global Instance Uri_eq_dec : EqDecision Uri.
Proof. solve_decision. Defined.

Global Instance Uri_countable : Countable Uri.
Proof.
  refine (inj_countable' (λ u, (scheme u, authority u, path u))
                         (λ t, mkUri t.1.1 t.1.2 t.2) _).
  by intros [].
Defined.

Module UriOps.
Import JsString.

(** [_referenceResolution]: for the [file], [http] and [https] schemes a
    path is made to start with a slash. *)
Definition referenceResolution (scheme path : string) : string :=
  if decide (scheme = "https" ∨ scheme = "http" ∨ scheme = "file") then
    if decide (path = "") then "/"
    else if startsWithSlash path then path
    else "/" +:+ path
  else path.

(** [Uri.file(path)] on a POSIX host (no backslash rewriting): a path
    that starts with two slashes carries an authority, as UNC shares
    do. *)
Definition file (p : string) : Uri :=
  let (auth, p') :=
    if startsWithSlash p && startsWithSlash (sliceFrom p 1) then
      match indexOfFrom p "/" 2 with
      | None => (sliceFrom p 2, "/")
      | Some idx =>
          let rest := sliceFrom p idx in
          (slice p 2 idx, if decide (rest = "") then "/" else rest)
      end
    else ("", p) in
  mkUri "file" auth (referenceResolution "file" p').

(** [uri.with({ path })].  The validation in the constructor rejects a
    path that starts with two slashes when there is no authority; the
    paths given here come from [posix.join], which never returns one. *)
Definition with_path (u : Uri) (p : string) : Uri :=
  mkUri (scheme u) (authority u) (referenceResolution (scheme u) p).

End UriOps.

(** ** The editor host *)

(** [vscode.Position], [vscode.Range], [vscode.Diagnostic]. *)
Record Position := mkPosition { line : nat; character : nat }.
Record Range := mkRange { range_start : Position; range_end : Position }.

Inductive DiagnosticSeverity := SevError | SevWarning | SevInformation | SevHint.

Record Diagnostic := mkDiagnostic {
  range : Range;
  message : string;
  severity : DiagnosticSeverity;
  code : option string
}.

Global Instance Position_eq_dec : EqDecision Position.
Proof. solve_decision. Defined.
Global Instance Range_eq_dec : EqDecision Range.
Proof. solve_decision. Defined.
Global Instance DiagnosticSeverity_eq_dec : EqDecision DiagnosticSeverity.
Proof. solve_decision. Defined.
Global Instance Diagnostic_eq_dec : EqDecision Diagnostic.
Proof. solve_decision. Defined.

(** [new vscode.Range(startLine, startCharacter, endLine, endCharacter)]. *)
Definition newRange (sl sc el ec : nat) : Range :=
  mkRange (mkPosition sl sc) (mkPosition el ec).

(** A [vscode.TextDocument]: its URI, its [fileName] and its text. *)
Record TextDocument := mkTextDocument {
  uri : Uri;
  fileName : string;
  text : string
}.

Module Document.

Definition LF : ascii := ascii_of_nat 10.
Definition CR : ascii := ascii_of_nat 13.

(** The lines of a text, without their terminators (LF, CR LF or CR);
    a text always has at least one line. *)
Fixpoint splitLines (s : string) : list string :=
  match s with
  | EmptyString => [EmptyString]
  | String c s' =>
      if Ascii.eqb c LF then EmptyString :: splitLines s'
      else if Ascii.eqb c CR then
        match s' with
        | String c' s'' =>
            if Ascii.eqb c' LF then EmptyString :: splitLines s''
            else EmptyString :: splitLines s'
        | EmptyString => EmptyString :: splitLines s'
        end
      else match splitLines s' with
           | [] => [String c EmptyString]
           | l :: ls => String c l :: ls
           end
  end.

(** Offset at which line number [n] starts. *)
Fixpoint lineStart (s : string) (n : nat) : nat :=
  match n, s with
  | 0, _ => 0
  | S _, EmptyString => 0
  | S n', String c s' =>
      if Ascii.eqb c LF then S (lineStart s' n')
      else if Ascii.eqb c CR then
        match s' with
        | String c' s'' =>
            if Ascii.eqb c' LF then S (S (lineStart s'' n'))
            else S (lineStart s' n')
        | EmptyString => S (lineStart s' n')
        end
      else S (lineStart s' n)
  end.

(** [doc.lineCount], [doc.lineAt(i).text], [doc.getText()]. *)
Definition lineCount (doc : TextDocument) : nat := length (splitLines (text doc)).
Definition lineAt (doc : TextDocument) (i : nat) : string :=
  nth i (splitLines (text doc)) EmptyString.
Definition getText (doc : TextDocument) : string := text doc.

(** [doc.offsetAt(doc.validatePosition(pos))]: a position past the last
    line is moved to the end of the text, a character past the end of
    its line to the end of that line. *)
Definition offsetAt (s : string) (pos : Position) : nat :=
  let ls := splitLines s in
  if line pos <? length ls then
    lineStart s (line pos)
      + Nat.min (character pos) (String.length (nth (line pos) ls EmptyString))
  else String.length s.

(** The text after [edit.insert(pos, value)]. *)
Definition insert (s : string) (pos : Position) (value : string) : string :=
  let off := offsetAt s pos in
  JsString.slice s 0 off +:+ value +:+ JsString.sliceFrom s off.

End Document.

(** What the workspace file system holds at a URI.  The text of a file is
    the text the editor shows for it. *)
Inductive FsEntry :=
| File (content : string)
| Directory.

(** The state of the host that the extension reads and writes:
    - [workspaceFolders]: [vscode.workspace.workspaceFolders] ([None] for
      [undefined]), each folder given by its URI;
    - [activeTextEditor]: the document of [vscode.window.activeTextEditor];
    - [fs]: the workspace file system;
    - [exportThisDiagnostics]: the diagnostic collection created by
      [activate];
    - [errorMessages]: the messages passed to [showErrorMessage], oldest
      first. *)
Record Host := mkHost {
  workspaceFolders : option (list Uri);
  activeTextEditor : option TextDocument;
  fs : gmap Uri FsEntry;
  exportThisDiagnostics : gmap Uri (list Diagnostic);
  errorMessages : list string
}.

(** ** Asynchronous computations over the host *)

(** A computation either returns a value or rejects; both leave a host
    state behind.  An [await] is the sequencing of two computations: the
    events the host may dispatch while a handler is suspended are not
    interleaved with it. *)
Inductive Result (A : Type) :=
| Returned (h : Host) (a : A)
| Rejected (h : Host) (err : string).
Arguments Returned {A} h a.
Arguments Rejected {A} h err.

Definition M (A : Type) : Type := Host → Result A.

Definition ret {A} (a : A) : M A := λ h, Returned h a.

Definition bind {A B} (m : M A) (f : A → M B) : M B := λ h,
  match m h with
  | Returned h' a => f a h'
  | Rejected h' err => Rejected h' err
  end.

Declare Scope host_scope.
Delimit Scope host_scope with host.
Bind Scope host_scope with M.
Notation "'await' x := m 'in' k" := (bind m (λ x, k))
  (at level 10, x name, m at level 100, k at level 200) : host_scope.
Notation "m ';;;' k" := (bind m (λ _, k))
  (at level 100, k at level 200, right associativity) : host_scope.
Open Scope host_scope.

Definition hostOf {A} (r : Result A) : Host :=
  match r with Returned h _ => h | Rejected h _ => h end.

(** [try { body } catch (error) { handler }]. *)
Definition tryCatch {A} (body : M A) (handler : string → M A) : M A := λ h,
  match body h with
  | Returned h' a => Returned h' a
  | Rejected h' err => handler err h'
  end.

Module HostApi.

(** [vscode.window.showErrorMessage(msg)]. *)
Definition showErrorMessage (msg : string) : M unit := λ h,
  Returned (mkHost (workspaceFolders h) (activeTextEditor h) (fs h)
                   (exportThisDiagnostics h) (errorMessages h ++ [msg])) tt.

(** [vscode.workspace.fs.stat(uri)] resolves exactly when there is an
    entry (file or directory) at [uri]. *)
Definition stat (files : gmap Uri FsEntry) (u : Uri) : bool :=
  match files !! u with Some _ => true | None => false end.

(** [vscode.workspace.openTextDocument(uri)]: rejects when there is no
    file to read at [uri]. *)
Definition openTextDocument (u : Uri) : M TextDocument := λ h,
  match fs h !! u with
  | Some (File content) => Returned h (mkTextDocument u (path u) content)
  | _ => Rejected h "cannot open the document"
  end.

(** [vscode.window.showTextDocument(doc, 1, false)]: the document
    becomes the one of the active editor. *)
Definition showTextDocument (doc : TextDocument) : M TextDocument := λ h,
  Returned (mkHost (workspaceFolders h) (Some doc) (fs h)
                   (exportThisDiagnostics h) (errorMessages h)) doc.

(** [e.edit(edit => edit.insert(pos, value))] on the editor of [doc]:
    the text of the document changes, both in the file store and in the
    active editor that shows it. *)
Definition editInsert (doc : TextDocument) (pos : Position) (value : string)
    : M unit := λ h,
  let text' := Document.insert (text doc) pos value in
  let active' :=
    match activeTextEditor h with
    | Some d => if decide (uri d = uri doc)
                then Some (mkTextDocument (uri d) (fileName d) text')
                else Some d
    | None => None
    end in
  Returned (mkHost (workspaceFolders h) active'
                   (<[uri doc := File text']> (fs h))
                   (exportThisDiagnostics h) (errorMessages h)) tt.

(** [diagnosticsCollection.set(uri, diagnostics)]: the diagnostics of
    [uri] are replaced by [diagnostics]. *)
Definition diagnosticsSet (u : Uri) (ds : list Diagnostic) : M unit := λ h,
  Returned (mkHost (workspaceFolders h) (activeTextEditor h) (fs h)
                   (<[u := ds]> (exportThisDiagnostics h)) (errorMessages h)) tt.

(** [diagnosticCollection.delete(uri)]. *)
Definition diagnosticsDelete (u : Uri) : M unit := λ h,
  Returned (mkHost (workspaceFolders h) (activeTextEditor h) (fs h)
                   (delete u (exportThisDiagnostics h)) (errorMessages h)) tt.

End HostApi.

(** ** The extension *)

Definition COMMAND : string := "export-this.command".
Definition EXPORT_THIS_MENTION : string := "export_this_mention".
Definition EXPORT : string := "export".

(** What the [while] loop of [findIndex] leaves behind.  [walk_probes]
    is not a variable of the source: it counts the executions of the loop
    body, each of which makes one [stat] call. *)
Record Walk := mkWalk {
  walk_found : bool;
  walk_iteration : nat;
  walk_indexPath : string;
  walk_indexUri : Uri;
  walk_probes : nat
}.

(** The loop [while (!found && iteration < 100) { ... }] of [findIndex].
    The arguments are the loop variables; [files] and [workspacePath] are
    read only.  A pass either finds the file ([found = true], after which
    the loop test fails), leaves by [break] when the next candidate path
    no longer contains the workspace path, or moves one directory up and
    counts the iteration. *)
Equations? findIndexLoop (files : gmap Uri FsEntry) (workspacePath : string)
    (found : bool) (iteration : nat) (indexPath : string) (indexUri : Uri)
    (probes : nat) : Walk
    by wf (if found then 0 else 101 - iteration) lt :=
  findIndexLoop files workspacePath true iteration indexPath indexUri probes :=
    mkWalk true iteration indexPath indexUri probes;
  findIndexLoop files workspacePath false iteration indexPath indexUri probes
    with decide (iteration < 100) => {
    | right _ := mkWalk false iteration indexPath indexUri probes;
    | left _ with HostApi.stat files (UriOps.with_path indexUri indexPath) => {
      | true :=
          findIndexLoop files workspacePath true iteration indexPath
            (UriOps.with_path indexUri indexPath) (S probes);
      | false
        with JsString.indexOf
               (posix.join [path (UriOps.with_path indexUri indexPath);
                            ".."; ".."; "index.ts"]) workspacePath => {
        | None :=
            mkWalk false iteration
              (posix.join [path (UriOps.with_path indexUri indexPath);
                           ".."; ".."; "index.ts"])
              (UriOps.with_path indexUri indexPath) (S probes);
        | Some _ :=
            findIndexLoop files workspacePath false (S iteration)
              (posix.join [path (UriOps.with_path indexUri indexPath);
                           ".."; ".."; "index.ts"])
              (UriOps.with_path indexUri indexPath) (S probes) } } }.
Proof. all: simpl; lia. Qed.

(** [findIndex()].  The test [!indexUri] after [Uri.file] never holds, a
    [Uri] being an object.  The function returns [indexUri] whatever the
    value of [found]. *)
Definition findIndex : M (option Uri) := λ h,
  match workspaceFolders h with
  | Some (ws0 :: _) =>
      let workspaceUri := ws0 in
      match activeTextEditor h with
      | Some document =>
          let filePath := uri document in
          let indexPath := posix.join [path filePath; ".."; "index.ts"] in
          let indexUri := UriOps.file indexPath in
          let w := findIndexLoop (fs h) (path workspaceUri) false 0
                                 indexPath indexUri 0 in
          Returned h (Some (walk_indexUri w))
      | None =>
          (HostApi.showErrorMessage "Error loading active file." ;;; ret None) h
      end
  | _ => (HostApi.showErrorMessage "No folder/workspace open." ;;; ret None) h
  end.

(** [getRelativePath(indexUri)]. *)
Definition getRelativePath (indexUri : Uri) (h : Host) : option string :=
  match activeTextEditor h with
  | None => None
  | Some document =>
      let filePath := uri document in
      let fileDir := posix.dirname (path filePath) in
      let fileName := posix.basename (path filePath) (Some ".ts") in
      let indexDir := posix.dirname (path indexUri) in
      let relativePath := JsString.replace fileDir indexDir "" in
      Some (relativePath +:+ "/" +:+ fileName)
  end.

(** The diagnostic pushed for an occurrence of [EXPORT] at column [index]
    of line [lineIndex]. *)
Definition exportDiagnostic (lineIndex index : nat) : Diagnostic :=
  mkDiagnostic
    (newRange lineIndex index lineIndex (index + String.length EXPORT))
    "Export file" SevHint (Some EXPORT_THIS_MENTION).

(** The [for] loop of [refreshDiagnostics] over the lines from
    [lineIndex] on, [diagnostics] being the array built so far.  The value
    is [None] when the function leaves by one of its [return]s inside the
    loop, and the final array otherwise. *)
Fixpoint scanLines (lineIndex : nat) (lines : list string)
    (diagnostics : list Diagnostic) : M (option (list Diagnostic)) :=
  match lines with
  | [] => ret (Some diagnostics)
  | lineOfText :: rest =>
      match JsString.indexOf lineOfText EXPORT with
      | None => scanLines (S lineIndex) rest diagnostics
      | Some index =>
          await indexUri := findIndex in
          match indexUri with
          | None => ret None
          | Some indexUri =>
              λ h,
              match getRelativePath indexUri h with
              | None => Returned h None
              | Some relPath =>
                  (await textDocument := HostApi.openTextDocument indexUri in
                   let text := Document.getText textDocument in
                   match JsString.indexOf text relPath with
                   | None =>
                       scanLines (S lineIndex) rest
                         (diagnostics ++ [exportDiagnostic lineIndex index])
                   | Some _ => scanLines (S lineIndex) rest diagnostics
                   end) h
              end
          end
      end
  end.

(** [refreshDiagnostics(doc, diagnosticsCollection)]. *)
Definition refreshDiagnostics (doc : TextDocument) : M unit :=
  let fileUri := UriOps.file (fileName doc) in
  let fileName := posix.basename (path fileUri) None in
  if decide (fileName = "index.ts") then ret tt
  else
    await r := scanLines 0 (Document.splitLines (text doc)) [] in
    match r with
    | None => ret tt
    | Some diagnostics => HostApi.diagnosticsSet (uri doc) diagnostics
    end.

(** The handler registered for [COMMAND] by [activate]. *)
Definition exportCommand : M unit :=
  await indexUri := findIndex in
  match indexUri with
  | None =>
      HostApi.showErrorMessage "Unable to find an index.ts file to export to"
  | Some indexUri =>
      λ h,
      match getRelativePath indexUri h with
      | None =>
          HostApi.showErrorMessage "Unable to construct the relative path" h
      | Some relPath =>
          (let exportText := "export * from '." +:+ relPath +:+ "';" in
           await textDocument := HostApi.openTextDocument indexUri in
           tryCatch
             (await e := HostApi.showTextDocument textDocument in
              HostApi.editInsert e
                (mkPosition (Document.lineCount textDocument) 0) exportText)
             (λ error, HostApi.showErrorMessage "Error inserting export snippet.")) h
      end
  end.

(** The events the extension subscribes to in
    [subscribeToDocumentChanges], and the activation itself. *)
Inductive Event :=
| Activate
| DidChangeActiveTextEditor (editor : option TextDocument)
| DidChangeTextDocument (document : TextDocument)
| DidCloseTextDocument (document : TextDocument).

(** What the extension runs on each event. *)
Definition handle (ev : Event) : M unit :=
  match ev with
  | Activate =>
      λ h, match activeTextEditor h with
           | Some document => refreshDiagnostics document h
           | None => Returned h tt
           end
  | DidChangeActiveTextEditor editor =>
      match editor with
      | Some document => refreshDiagnostics document
      | None => ret tt
      end
  | DidChangeTextDocument document => refreshDiagnostics document
  | DidCloseTextDocument document => HostApi.diagnosticsDelete (uri document)
  end.

(** * Vocabulary of the statements *)

(** The candidate path one directory further up. *)
Definition upward (u : Uri) : string :=
  posix.join [path u; ".."; ".."; "index.ts"].

(** The absolute path [/s1/s2/.../sn]. *)
Definition absPath (segs : list string) : string :=
  foldr (λ seg acc, "/" +:+ seg +:+ acc) "" segs.

Fixpoint hasSlash (s : string) : bool :=
  match s with
  | EmptyString => false
  | String c s' => Ascii.eqb c "/" || hasSlash s'
  end.

(** A directory or file name: not empty, no slash, neither [.] nor [..]. *)
Definition segmentOk (s : string) : bool :=
  negb (hasSlash s) && bool_decide (s ≠ "") && bool_decide (s ≠ ".")
  && bool_decide (s ≠ "..").

(** The [file:] URI of an absolute path. *)
Definition fileUri (segs : list string) : Uri := mkUri "file" "" (absPath segs).

(** Specification side: the markers asked for [lines], numbered from
    [lineIndex], one for each line that contains [EXPORT], at the first
    occurrence of it. *)
Fixpoint exportHints (lineIndex : nat) (lines : list string) : list Diagnostic :=
  match lines with
  | [] => []
  | lineOfText :: rest =>
      match JsString.indexOf lineOfText EXPORT with
      | Some index =>
          exportDiagnostic lineIndex index :: exportHints (S lineIndex) rest
      | None => exportHints (S lineIndex) rest
      end
  end.

(** The markers of [ds] that start on line [i]. *)
Definition onLine (i : nat) (ds : list Diagnostic) : list Diagnostic :=
  filter (λ d, line (range_start (range d)) = i) ds.

(** The host with another content of the diagnostic collection. *)
Definition withDiagnostics (h : Host) (c : gmap Uri (list Diagnostic)) : Host :=
  mkHost (workspaceFolders h) (activeTextEditor h) (fs h) c (errorMessages h).

Definition mapHost {A} (f : Host → Host) (r : Result A) : Result A :=
  match r with
  | Returned h a => Returned (f h) a
  | Rejected h err => Rejected (f h) err
  end.

(** Whether [refreshDiagnostics] takes [doc] for a barrel file. *)
Definition isBarrel (doc : TextDocument) : Prop :=
  posix.basename (path (UriOps.file (fileName doc))) None = "index.ts".

Global Instance isBarrel_dec doc : Decision (isBarrel doc).
Proof. unfold isBarrel. apply _. Defined.

(** The first candidate of the walk, the URI the walk ends on and the
    specifier, written as functions of the active editor's document. *)
Definition candidateOf (active : TextDocument) : string :=
  posix.join [path (uri active); ".."; "index.ts"].

Definition barrelOf (files : gmap Uri FsEntry) (workspaceUri : Uri)
    (active : TextDocument) : Uri :=
  walk_indexUri
    (findIndexLoop files (path workspaceUri) false 0 (candidateOf active)
                   (UriOps.file (candidateOf active)) 0).

Definition specifierOf (active : TextDocument) (indexUri : Uri) : string :=
  JsString.replace (posix.dirname (path (uri active)))
                   (posix.dirname (path indexUri)) ""
  +:+ "/" +:+ posix.basename (path (uri active)) (Some ".ts").

(** The events on which the scanner recomputes the markers of [doc]. *)
Definition triggers (ev : Event) (h : Host) (doc : TextDocument) : Prop :=
  match ev with
  | Activate => activeTextEditor h = Some doc
  | DidChangeActiveTextEditor editor => editor = Some doc
  | DidChangeTextDocument document => document = doc
  | DidCloseTextDocument _ => False
  end.

(** The marker set of [doc] once [ev] has been handled. *)
Definition markersAfter (ev : Event) (doc : TextDocument) (h : Host)
    : option (list Diagnostic) :=
  exportThisDiagnostics (hostOf (handle ev h)) !! uri doc.

(** "The marker set of [doc] is replaced by the newly computed one": what
    the collection holds for [doc] after the event does not depend on what
    the collection held before. *)
Definition replacesMarkerSet (ev : Event) (doc : TextDocument) (h : Host) : Prop :=
  ∀ previous : gmap Uri (list Diagnostic),
    markersAfter ev doc (withDiagnostics h previous)
    = markersAfter ev doc (withDiagnostics h ∅).

(** * Scenarios *)

Definition nearestHost : Host :=
  mkHost (Some [fileUri ["ws"]])
         (Some (mkTextDocument (fileUri ["ws"; "a"; "b"; "Foo.ts"])
                               "/ws/a/b/Foo.ts" "export class Foo {}"))
         (<[fileUri ["ws"; "a"; "index.ts"] := File ""]>
            (<[fileUri ["ws"; "index.ts"] := File ""]> ∅))
         ∅ [].

(** A barrel 101 directories above the active file:
    [/w/a/index.ts] and [/w/a/x/x/.../x/F.ts] with 100 directories [x]. *)
Definition deepDirs : list string := replicate 100 "x".

Definition deepHost : Host :=
  mkHost (Some [fileUri ["w"]])
         (Some (mkTextDocument (fileUri (["w"; "a"] ++ deepDirs ++ ["F.ts"]))
                               (absPath (["w"; "a"] ++ deepDirs ++ ["F.ts"]))
                               "export class F {}"))
         (<[fileUri ["w"; "a"; "index.ts"] := File ""]> ∅)
         ∅ [].

(** The active file [/x/a/b/Foo.ts] and a barrel [/a/index.ts]. *)
Definition strayHost : Host :=
  mkHost (Some [fileUri ["x"]])
         (Some (mkTextDocument (fileUri ["x"; "a"; "b"; "Foo.ts"])
                               "/x/a/b/Foo.ts" "export class Foo {}"))
         ∅ ∅ [].

Definition fooDocument : TextDocument :=
  mkTextDocument (fileUri ["ws"; "a"; "b"; "Foo.ts"]) "/ws/a/b/Foo.ts"
                 "export class Foo {}".

(** The barrel of [nearestHost] once it re-exports [Foo]. *)
Definition exportedHost : Host :=
  mkHost (Some [fileUri ["ws"]]) (Some fooDocument)
         (<[fileUri ["ws"; "a"; "index.ts"] := File "export * from './b/Foo';"]> ∅)
         ∅ [].

(** [Foo.ts] is the active file, [Bar.ts] the scanned document; the barrel
    re-exports only one of the two. *)
Definition fooSibling : TextDocument :=
  mkTextDocument (fileUri ["ws"; "a"; "Foo.ts"]) "/ws/a/Foo.ts" "export class Foo {}".

Definition barSibling : TextDocument :=
  mkTextDocument (fileUri ["ws"; "a"; "Bar.ts"]) "/ws/a/Bar.ts" "export class Bar {}".

Definition siblingHost (barrel : string) : Host :=
  mkHost (Some [fileUri ["ws"]]) (Some fooSibling)
         (<[fileUri ["ws"; "a"; "index.ts"] := File barrel]> ∅) ∅ [].

(** [Foo.ts] was marked on its first line; a blank line is then put before
    its declaration while no text editor is active. *)
Definition movedDocument : TextDocument :=
  mkTextDocument (fileUri ["ws"; "a"; "b"; "Foo.ts"]) "/ws/a/b/Foo.ts"
                 (String Document.LF "export class Foo {}").

Definition staleHost : Host :=
  mkHost (Some [fileUri ["ws"]]) None
         (<[fileUri ["ws"; "a"; "index.ts"] := File ""]> ∅)
         (<[fileUri ["ws"; "a"; "b"; "Foo.ts"] := [exportDiagnostic 0 0]]> ∅)
         [].

(** The workspace [/ws] with the active file [/ws/a/b/Foo.ts] and no
    [index.ts] anywhere. *)
Definition noIndexHost : Host :=
  mkHost (Some [fileUri ["ws"]]) (Some fooDocument) ∅ ∅ [].

(** The barrel [/ws/a/index.ts] with one line, ended by a line feed. *)
Definition barrelText : string :=
  "export * from './Bar';" +:+ String Document.LF "".

Definition barrelHost : Host :=
  mkHost (Some [fileUri ["ws"]]) (Some fooDocument)
         (<[fileUri ["ws"; "a"; "index.ts"] := File barrelText]> ∅) ∅ [].

(** * Further vocabulary *)

(** The document an event is about: the one [handle] scans or closes. *)
Definition subject (ev : Event) (h : Host) : option TextDocument :=
  match ev with
  | Activate => activeTextEditor h
  | DidChangeActiveTextEditor editor => editor
  | DidChangeTextDocument document => Some document
  | DidCloseTextDocument document => Some document
  end.

(** Whether some line of [lines] contains [EXPORT]. *)
Definition mentionsExport (lines : list string) : bool :=
  existsb (λ lineText, JsString.includes lineText EXPORT) lines.

(** The walk [findIndex] makes in a host that has a workspace folder and
    an active editor. *)
Definition walkOf (files : gmap Uri FsEntry) (workspaceUri : Uri)
    (active : TextDocument) : Walk :=
  findIndexLoop files (path workspaceUri) false 0 (candidateOf active)
                (UriOps.file (candidateOf active)) 0.

(** The message [findIndex] shows when it gives up before its walk. *)
Definition preconditionMessage (h : Host) : option string :=
  match workspaceFolders h with
  | Some (_ :: _) =>
      match activeTextEditor h with
      | Some _ => None
      | None => Some "Error loading active file."
      end
  | _ => Some "No folder/workspace open."
  end.

(** [h'] differs from [h] at most by error messages shown after those of
    [h]. *)
Definition onlyMessagesAdded (h h' : Host) : Prop :=
  workspaceFolders h' = workspaceFolders h
  ∧ activeTextEditor h' = activeTextEditor h
  ∧ fs h' = fs h
  ∧ exportThisDiagnostics h' = exportThisDiagnostics h
  ∧ ∃ shown, errorMessages h' = errorMessages h ++ shown.

(** ** The code action provider *)

(** [vscode.CodeActionKind], [vscode.Command], [vscode.CodeAction] and
    [vscode.CodeActionContext], with the fields the extension sets or
    reads. *)
Inductive CodeActionKind :=
| KindEmpty | KindQuickFix | KindRefactor | KindSource.

Record Command := mkCommand {
  command : string;
  command_title : string;
  command_tooltip : string
}.

Record CodeAction := mkCodeAction {
  action_title : string;
  action_kind : CodeActionKind;
  action_command : option Command;
  action_diagnostics : option (list Diagnostic);
  action_isPreferred : option bool
}.

Record CodeActionContext := mkCodeActionContext {
  context_diagnostics : list Diagnostic
}.

Module ExportThisInfo.

Definition providedCodeActionKinds : list CodeActionKind := [KindQuickFix].

(** [createCommandCodeAction(diagnostic)]. *)
Definition createCommandCodeAction (diagnostic : Diagnostic) : CodeAction :=
  mkCodeAction "Export file" KindQuickFix
    (Some (mkCommand COMMAND "Export file"
             "This will export the current file to the nearst index.ts file."))
    (Some [diagnostic])
    (Some false).

(** [provideCodeActions(document, range, context, token)]; the
    cancellation token is not looked at. *)
Definition provideCodeActions (document : TextDocument) (range : Range)
    (context : CodeActionContext) : list CodeAction :=
  map createCommandCodeAction
      (filter (λ diagnostic, code diagnostic = Some EXPORT_THIS_MENTION)
              (context_diagnostics context)).

End ExportThisInfo.

(** One step of a session: the extension handles an event or runs the
    export command, or the user and the editor change folders, editors
    and files, which leaves the extension's diagnostic collection alone. *)
Inductive sessionStep : Host → Host → Prop :=
| step_event ev h : sessionStep h (hostOf (handle ev h))
| step_command h : sessionStep h (hostOf (exportCommand h))
| step_outside h h' :
    exportThisDiagnostics h' = exportThisDiagnostics h → sessionStep h h'.

(** The markers the scanner builds. *)
Definition scannerMarker (d : Diagnostic) : Prop :=
  ∃ lineIndex index, d = exportDiagnostic lineIndex index.

(** Every marker of the collection was built by the scanner. *)
Definition onlyScannerMarkers (h : Host) : Prop :=
  ∀ u ds d, exportThisDiagnostics h !! u = Some ds → d ∈ ds → scannerMarker d.

(** A name kept by [posix.normalize]: not empty and without a slash. *)
Definition keptSegment (s : string) : Prop := s ≠ "" ∧ hasSlash s = false.

(** The paths of an [index.ts] as [posix.join] returns them, relative or
    absolute, and the absolute ones as a [file:] URI holds them. *)
Definition indexPathOk (s : string) : Prop :=
  ∃ segs, Forall keptSegment segs
          ∧ (s = JsString.joinSlash (segs ++ ["index.ts"])
             ∨ s = "/" +:+ JsString.joinSlash (segs ++ ["index.ts"])).

Definition absIndexPath (s : string) : Prop :=
  ∃ segs, Forall keptSegment segs
          ∧ s = "/" +:+ JsString.joinSlash (segs ++ ["index.ts"]).

(** ** The earlier version of the extension ([src/unnamed/part_001])

    The command handler makes the walk itself, with the same loop, and
    tests [found]; the scanner marks every line that contains [EXPORT],
    without looking at any barrel file. *)
Module Earlier.

(** [createDiagnostic(doc, lineOfText, lineIndex)].  [indexOf] gives -1
    when [EXPORT] does not occur; [new vscode.Range] then throws on the
    negative character, which is [None] here. *)
Definition createDiagnostic (doc : TextDocument) (lineOfText : string)
    (lineIndex : nat) : option Diagnostic :=
  match JsString.indexOf lineOfText EXPORT with
  | Some index =>
      Some (mkDiagnostic
              (newRange lineIndex index lineIndex (index + String.length EXPORT))
              "Export file" SevHint (Some EXPORT_THIS_MENTION))
  | None => None
  end.

(** The [for] loop of [refreshDiagnostics]; [None] when
    [createDiagnostic] throws. *)
Fixpoint collectDiagnostics (doc : TextDocument) (lineIndex : nat)
    (lines : list string) (diagnostics : list Diagnostic)
    : option (list Diagnostic) :=
  match lines with
  | [] => Some diagnostics
  | lineOfText :: rest =>
      if JsString.includes lineOfText EXPORT then
        match createDiagnostic doc lineOfText lineIndex with
        | Some diagnostic =>
            collectDiagnostics doc (S lineIndex) rest (diagnostics ++ [diagnostic])
        | None => None
        end
      else collectDiagnostics doc (S lineIndex) rest diagnostics
  end.

(** [refreshDiagnostics(doc, diagnosticsCollection)]. *)
Definition refreshDiagnostics (doc : TextDocument) : M unit := λ h,
  match collectDiagnostics doc 0 (Document.splitLines (text doc)) [] with
  | Some diagnostics => HostApi.diagnosticsSet (uri doc) diagnostics h
  | None => Rejected h "illegal argument"
  end.

(** The handler registered for [COMMAND].  The promise of
    [openTextDocument] is given a handler for its rejection. *)
Definition exportCommand : M unit := λ h,
  match workspaceFolders h with
  | Some (ws0 :: _) =>
      let workspaceUri := ws0 in
      match activeTextEditor h with
      | Some document =>
          let filePath := uri document in
          let indexPath := posix.join [path filePath; ".."; "index.ts"] in
          let indexUri := UriOps.file indexPath in
          let w := findIndexLoop (fs h) (path workspaceUri) false 0
                                 indexPath indexUri 0 in
          if negb (walk_found w) then
            HostApi.showErrorMessage
              "Unable to find an index.ts file to export to" h
          else
            let indexUri := walk_indexUri w in
            let fileDir := posix.dirname (path filePath) in
            let fileName := posix.basename (path filePath) (Some ".ts") in
            let indexDir := posix.dirname (path indexUri) in
            let relativePath := JsString.replace fileDir indexDir "" in
            let exportText :=
              "export * from '." +:+ relativePath +:+ "/" +:+ fileName +:+ "';" in
            match HostApi.openTextDocument indexUri h with
            | Returned h1 textDocument =>
                (await e := HostApi.showTextDocument textDocument in
                 HostApi.editInsert e
                   (mkPosition (Document.lineCount textDocument) 0) exportText) h1
            | Rejected h1 error =>
                HostApi.showErrorMessage "Error inserting export snippet." h1
            end
      | None => HostApi.showErrorMessage "Error loading active file." h
      end
  | _ => HostApi.showErrorMessage "No folder/workspace open." h
  end.

End Earlier.

(** ** Lines of the barrel *)

(** A text without a line terminator in it. *)
Fixpoint lineBreakFree (s : string) : bool :=
  match s with
  | EmptyString => true
  | String c s' =>
      negb (Ascii.eqb c Document.LF) && negb (Ascii.eqb c Document.CR)
      && lineBreakFree s'
  end.

(** A text that is empty or ends with a line terminator. *)
Definition closedText (content : string) : Prop :=
  content = ""
  ∨ ∃ body c, content = body +:+ String c ""
              ∧ (c = Document.LF ∨ c = Document.CR).

(** The lines a text has for its reader: all the lines of the document
    but the empty one that follows a final line terminator, or that an
    empty text consists of. *)
Definition existingLines (content : string) : list string :=
  if decide (last (Document.splitLines content) = Some "")
  then removelast (Document.splitLines content)
  else Document.splitLines content.

(** "[statement] is a line placed after the last existing line of
    [content]": the lines of the new text are the existing lines followed
    by the statement. *)
Definition placedAfterLastLine (content statement new : string) : Prop :=
  Document.splitLines new = existingLines content ++ [statement].

(** The barrel [/ws/a/index.ts] with one line that no terminator ends. *)
Definition openBarrelHost : Host :=
  mkHost (Some [fileUri ["ws"]]) (Some fooDocument)
         (<[fileUri ["ws"; "a"; "index.ts"] := File "export * from './Bar';"]> ∅)
         ∅ [].

(** ** A scan among other handlers

    [refreshDiagnostics] is suspended at [await findIndex()] and at
    [await vscode.workspace.openTextDocument(indexUri)], once for every
    line that contains [EXPORT], and the host dispatches other handlers
    and user actions meanwhile.  [Others] gives what they do to the host
    at each of these awaits; the scan goes on in the host they leave.  The
    lines are those of the document when the scan begins. *)
Inductive Await :=
| AwaitFindIndex (lineIndex : nat)
| AwaitOpenTextDocument (lineIndex : nat).

Definition Others : Type := Await → Host → Host.

(** [await m] at [point]: [m] settles, the others run, the scan resumes. *)
Definition awaitAmid {A} (others : Others) (point : Await) (m : M A) : M A :=
  λ h, mapHost (others point) (m h).

(** The [for] loop of [refreshDiagnostics] with the others let in at its
    awaits. *)
Fixpoint scanLinesAmid (others : Others) (lineIndex : nat)
    (lines : list string) (diagnostics : list Diagnostic)
    : M (option (list Diagnostic)) :=
  match lines with
  | [] => ret (Some diagnostics)
  | lineOfText :: rest =>
      match JsString.indexOf lineOfText EXPORT with
      | None => scanLinesAmid others (S lineIndex) rest diagnostics
      | Some index =>
          await indexUri :=
            awaitAmid others (AwaitFindIndex lineIndex) findIndex in
          match indexUri with
          | None => ret None
          | Some indexUri =>
              λ h,
              match getRelativePath indexUri h with
              | None => Returned h None
              | Some relPath =>
                  (await textDocument :=
                     awaitAmid others (AwaitOpenTextDocument lineIndex)
                       (HostApi.openTextDocument indexUri) in
                   let text := Document.getText textDocument in
                   match JsString.indexOf text relPath with
                   | None =>
                       scanLinesAmid others (S lineIndex) rest
                         (diagnostics ++ [exportDiagnostic lineIndex index])
                   | Some _ =>
                       scanLinesAmid others (S lineIndex) rest diagnostics
                   end) h
              end
          end
      end
  end.

(** [refreshDiagnostics(doc, diagnosticsCollection)] among the others. *)
Definition refreshDiagnosticsAmid (others : Others) (doc : TextDocument)
    : M unit :=
  let fileUri := UriOps.file (fileName doc) in
  let fileName := posix.basename (path fileUri) None in
  if decide (fileName = "index.ts") then ret tt
  else
    await r := scanLinesAmid others 0 (Document.splitLines (text doc)) [] in
    match r with
    | None => ret tt
    | Some diagnostics => HostApi.diagnosticsSet (uri doc) diagnostics
    end.

(** Nothing happens at the awaits. *)
Definition nobody : Others := λ _ h, h.

(** The others leave alone what a scan of [doc] reads and writes: the
    workspace folders, the active editor, the files and the marker set of
    [doc]. *)
Definition leaveAlone (others : Others) (doc : TextDocument) : Prop :=
  ∀ point h,
    workspaceFolders (others point h) = workspaceFolders h
    ∧ activeTextEditor (others point h) = activeTextEditor h
    ∧ fs (others point h) = fs h
    ∧ exportThisDiagnostics (others point h) !! uri doc
      = exportThisDiagnostics h !! uri doc.

(** [h] shows a scan the same folders, active editor and files as [h0]. *)
Definition sameView (h0 h : Host) : Prop :=
  workspaceFolders h = workspaceFolders h0
  ∧ activeTextEditor h = activeTextEditor h0
  ∧ fs h = fs h0.

(** Whether a line that contains [EXPORT] gets its marker in [h]: the
    barrel of the active file opens and does not contain the specifier. *)
Definition marksExportLines (h : Host) : bool :=
  match workspaceFolders h, activeTextEditor h with
  | Some (workspaceUri :: _), Some active =>
      match fs h !! barrelOf (fs h) workspaceUri active with
      | Some (File content) =>
          bool_decide
            (JsString.indexOf content
               (specifierOf active (barrelOf (fs h) workspaceUri active)) = None)
      | _ => false
      end
  | _, _ => false
  end.

(** The user goes from [Foo.ts] to [Bar.ts] while the barrel is opened
    for line 0 of a scan. *)
Definition editorSwitch : Others := λ point h,
  match point with
  | AwaitOpenTextDocument 0 =>
      mkHost (workspaceFolders h) (Some barSibling) (fs h)
             (exportThisDiagnostics h) (errorMessages h)
  | _ => h
  end.

(** A document with two lines that contain [EXPORT]. *)
Definition twoExports : TextDocument :=
  mkTextDocument (fileUri ["ws"; "a"; "Two.ts"]) "/ws/a/Two.ts"
    ("export class A {}" +:+ String Document.LF "export class B {}").

(** While a scan is suspended, the document [Bar.ts] is closed and a
    message is shown. *)
Definition closesBar : Others := λ _ h,
  hostOf ((HostApi.diagnosticsDelete (uri barSibling) ;;;
           HostApi.showErrorMessage "Error loading active file.") h).

(** * Facts about the string primitives *)

Section StringFacts.
Implicit Types s t u : string.

Lemma sapp_cons c s t : String c s +:+ t = String c (s +:+ t).
Proof. reflexivity. Qed.

Lemma sapp_nil_l t : "" +:+ t = t.
Proof. reflexivity. Qed.

Lemma sapp_nil_r s : s +:+ "" = s.
Proof. induction s as [|c s IH]; [reflexivity|]. by rewrite sapp_cons, IH. Qed.

Lemma sapp_assoc s t u : (s +:+ t) +:+ u = s +:+ (t +:+ u).
Proof.
  induction s as [|c s IH]; [reflexivity|]. by rewrite !sapp_cons, IH.
Qed.

Lemma slength_app s t :
  String.length (s +:+ t) = String.length s + String.length t.
Proof.
  induction s as [|c s IH]; [reflexivity|].
  rewrite sapp_cons. simpl. by rewrite IH.
Qed.

Lemma substring_full s : String.substring 0 (String.length s) s = s.
Proof. induction s as [|c s IH]; [reflexivity|]. simpl. by rewrite IH. Qed.

Lemma substring_zero s : String.substring 0 0 s = "".
Proof. by destruct s. Qed.

Lemma substring_past s n : String.substring (String.length s) n s = "".
Proof. induction s as [|c s IH]; [by destruct n|]. simpl. apply IH. Qed.

Lemma substring_app_take s t :
  String.substring 0 (String.length s) (s +:+ t) = s.
Proof.
  induction s as [|c s IH]; [apply substring_zero|].
  rewrite sapp_cons. simpl. by rewrite IH.
Qed.

Lemma substring_app_drop s t n :
  String.substring (String.length s) n (s +:+ t) = String.substring 0 n t.
Proof.
  induction s as [|c s IH]; [reflexivity|]. rewrite sapp_cons. simpl. apply IH.
Qed.

Lemma prefix_app s t : String.prefix s (s +:+ t) = true.
Proof. apply String.prefix_correct, substring_app_take. Qed.

Lemma indexOf_prefix s t : JsString.indexOf (s +:+ t) s = Some 0.
Proof.
  unfold JsString.indexOf.
  pose proof (prefix_app s t) as Hp.
  destruct (s +:+ t) as [|b r] eqn:E.
  - destruct s; [reflexivity|discriminate].
  - simpl in *. by rewrite Hp.
Qed.

(** [indexOf] points at an occurrence, and at the first one. *)
Lemma indexOf_first s pat i :
  JsString.indexOf s pat = Some i →
  String.substring i (String.length pat) s = pat
  ∧ ∀ j, j < i → String.substring j (String.length pat) s ≠ pat.
Proof.
  unfold JsString.indexOf. intros H. split.
  - by apply (String.index_correct1 0 i pat s).
  - intros j Hj. apply (String.index_correct2 0 i pat s H); lia.
Qed.

(** Removing a prefix with [replace]. *)
Lemma replace_prefix s t : JsString.replace (s +:+ t) s "" = t.
Proof.
  unfold JsString.replace, JsString.slice, JsString.sliceFrom.
  rewrite indexOf_prefix, substring_zero, !sapp_nil_l. simpl.
  rewrite substring_app_drop, slength_app.
  replace (String.length s + String.length t - String.length s)
    with (String.length t) by lia.
  apply substring_full.
Qed.

Lemma replace_absent s pat rep :
  JsString.indexOf s pat = None → JsString.replace s pat rep = s.
Proof. unfold JsString.replace. by intros ->. Qed.

End StringFacts.

(** * The upward walk of [findIndex] *)

Section Walk.
Variable files : gmap Uri FsEntry.
Variable workspacePath : string.

(** One reading of the loop: test, body, and the loop again. *)
Lemma findIndexLoop_step found iteration indexPath indexUri probes :
  findIndexLoop files workspacePath found iteration indexPath indexUri probes =
  if negb found && bool_decide (iteration < 100) then
    let indexUri' := UriOps.with_path indexUri indexPath in
    if HostApi.stat files indexUri' then
      findIndexLoop files workspacePath true iteration indexPath indexUri'
                    (S probes)
    else
      match JsString.indexOf (upward indexUri') workspacePath with
      | None => mkWalk false iteration (upward indexUri') indexUri' (S probes)
      | Some _ =>
          findIndexLoop files workspacePath false (S iteration)
                        (upward indexUri') indexUri' (S probes)
      end
  else mkWalk found iteration indexPath indexUri probes.
Proof.
  destruct found; simp findIndexLoop; [done|].
  unfold upward. simpl.
  destruct (decide (iteration < 100)) as [Hlt|Hge]; simpl.
  - rewrite bool_decide_eq_true_2 by done.
    destruct (HostApi.stat files _); simpl; [done|].
    by destruct (JsString.indexOf _ _).
  - by rewrite bool_decide_eq_false_2.
Qed.

(** The body of the loop runs at most [100 - iteration] more times. *)
Lemma findIndexLoop_probes found iteration indexPath indexUri probes :
  walk_probes
    (findIndexLoop files workspacePath found iteration indexPath indexUri probes)
  ≤ probes + (if found then 0 else 100 - iteration).
Proof.
  funelim (findIndexLoop files workspacePath found iteration indexPath
             indexUri probes); simpl in *; try lia.
Qed.

(** [iteration] never passes the cap. *)
Lemma findIndexLoop_iteration found iteration indexPath indexUri probes :
  iteration ≤ 100 →
  walk_iteration
    (findIndexLoop files workspacePath found iteration indexPath indexUri probes)
  ≤ 100.
Proof.
  funelim (findIndexLoop files workspacePath found iteration indexPath
             indexUri probes); simpl in *; intros; try lia.
  all: match goal with IH : _ → walk_iteration _ ≤ 100 |- _ => apply IH; lia end.
Qed.

End Walk.

(** * Paths given by their segments *)

Section PathFacts.
Implicit Types s t : string.
Implicit Types segs : list string.

Lemma segmentOk_spec s :
  segmentOk s = true ↔ hasSlash s = false ∧ s ≠ "" ∧ s ≠ "." ∧ s ≠ "..".
Proof.
  unfold segmentOk. rewrite !andb_true_iff, negb_true_iff, !bool_decide_eq_true.
  tauto.
Qed.

Lemma absPath_app segs1 segs2 :
  absPath (segs1 ++ segs2) = absPath segs1 +:+ absPath segs2.
Proof.
  induction segs1 as [|x segs1 IH]; [reflexivity|].
  simpl. by rewrite IH, !sapp_assoc.
Qed.

Lemma absPath_cons s segs : absPath (s :: segs) = String "/" (s +:+ absPath segs).
Proof. reflexivity. Qed.

Lemma splitSlash_nonempty s : JsString.splitSlash s ≠ [].
Proof.
  destruct s as [|c s]; simpl; [done|].
  destruct (Ascii.eqb c "/"); [done|]. by destruct (JsString.splitSlash s).
Qed.

Lemma splitSlash_app_noslash s t :
  hasSlash s = false →
  JsString.splitSlash (s +:+ t) =
  match JsString.splitSlash t with
  | x :: xs => (s +:+ x) :: xs
  | [] => [s]
  end.
Proof.
  pose proof (splitSlash_nonempty t) as Ht.
  induction s as [|c s IH]; intros Hs.
  - rewrite sapp_nil_l. by destruct (JsString.splitSlash t).
  - simpl in Hs. apply orb_false_iff in Hs as [Hc Hs].
    rewrite sapp_cons. simpl. rewrite Hc, (IH Hs).
    by destruct (JsString.splitSlash t).
Qed.

Lemma splitSlash_absPath segs :
  Forall (λ s, hasSlash s = false) segs →
  JsString.splitSlash (absPath segs) = "" :: segs.
Proof.
  induction 1 as [|s segs Hs _ IH]; [reflexivity|].
  rewrite absPath_cons. simpl.
  by rewrite (splitSlash_app_noslash _ _ Hs), IH, sapp_nil_r.
Qed.

Lemma normalizeStep_ok b res s :
  segmentOk s = true → posix.normalizeStep b res s = s :: res.
Proof.
  intros (_ & H1 & H2 & H3)%segmentOk_spec. unfold posix.normalizeStep.
  destruct (decide (s = "" ∨ s = ".")) as [[?|?]|_]; [done..|].
  by destruct (decide (s = "..")).
Qed.

Lemma normalizeStep_up b top res :
  top ≠ ".." → posix.normalizeStep b (top :: res) ".." = res.
Proof.
  intros Htop. unfold posix.normalizeStep.
  destruct (decide (".." = "" ∨ ".." = ".")) as [[?|?]|_]; [done..|].
  destruct (decide (".." = "..")); [|done].
  by destruct (decide (top = "..")).
Qed.

Lemma fold_normalizeStep_ok b segs res :
  Forall (λ s, segmentOk s = true) segs →
  fold_left (posix.normalizeStep b) segs res = rev segs ++ res.
Proof.
  intros H. revert res. induction H as [|s segs Hs _ IH]; intros res; [done|].
  simpl. rewrite (normalizeStep_ok _ _ _ Hs), IH. by rewrite <- app_assoc.
Qed.

Lemma joinSlash_absPath s segs :
  "/" +:+ JsString.joinSlash (s :: segs) = absPath (s :: segs).
Proof.
  revert s. induction segs as [|x segs IH]; intros s.
  - unfold JsString.joinSlash. simpl. by rewrite sapp_nil_r.
  - rewrite absPath_cons, <- IH. reflexivity.
Qed.

Lemma endsWithSlash_app s t :
  t ≠ "" → JsString.endsWithSlash (s +:+ t) = JsString.endsWithSlash t.
Proof.
  intros Ht. induction s as [|c s IH]; [done|].
  rewrite sapp_cons. simpl. rewrite IH.
  destruct (s +:+ t) eqn:E; [|done].
  destruct s; [by rewrite sapp_nil_l in E|discriminate].
Qed.

(** Normalizing an absolute path that ends in [index.ts]: [out] is what
    the segment pass keeps. *)
Lemma normalize_absPath segs o out :
  Forall (λ s, hasSlash s = false) segs →
  fold_left (posix.normalizeStep false) (segs ++ ["index.ts"]) []
    = rev (o :: out) →
  o ≠ "" →
  posix.normalize (absPath (segs ++ ["index.ts"])) = absPath (o :: out).
Proof.
  intros Hsegs Hfold Ho. unfold posix.normalize.
  assert (absPath (segs ++ ["index.ts"]) ≠ "") as Hne.
  { destruct segs; done. }
  destruct (decide (absPath (segs ++ ["index.ts"]) = "")) as [|_]; [done|].
  assert (JsString.startsWithSlash (absPath (segs ++ ["index.ts"])) = true) as ->.
  { by destruct segs. }
  assert (JsString.endsWithSlash (absPath (segs ++ ["index.ts"])) = false) as ->.
  { rewrite absPath_app. by rewrite endsWithSlash_app. }
  unfold posix.normalizeString. rewrite splitSlash_absPath.
  2:{ apply Forall_app. split; [done|]. by repeat constructor. }
  simpl. change (posix.normalizeStep false [] "") with (@nil string).
  rewrite Hfold, rev_involutive.
  destruct (decide (JsString.joinSlash (o :: out) = "")) as [E|_].
  - exfalso. unfold JsString.joinSlash in E. simpl in E.
    destruct out; [done|]. by destruct o.
  - apply joinSlash_absPath.
Qed.

Lemma Forall_segmentOk_noslash segs :
  Forall (λ s, segmentOk s = true) segs → Forall (λ s, hasSlash s = false) segs.
Proof.
  intros H. eapply Forall_impl; [exact H|]. by intros s (? & _)%segmentOk_spec.
Qed.

Lemma segmentOk_head s segs :
  Forall (λ s, segmentOk s = true) (s :: segs) → s ≠ "".
Proof.
  intros H. apply Forall_inv in H. by apply segmentOk_spec in H as (_ & H & _).
Qed.

(** [posix.join(file, '..', 'index.ts')]: the [index.ts] next to a file. *)
Lemma join_sibling segs f :
  Forall (λ s, segmentOk s = true) segs → segmentOk f = true →
  posix.join [absPath (segs ++ [f]); ".."; "index.ts"]
  = absPath (segs ++ ["index.ts"]).
Proof.
  intros Hsegs Hf. unfold posix.join.
  rewrite filter_cons_True by (destruct segs; done).
  change (filter (λ a : string, a ≠ "") [".."; "index.ts"])
    with [".."; "index.ts"].
  replace (JsString.joinSlash [absPath (segs ++ [f]); ".."; "index.ts"])
    with (absPath ((segs ++ [f; ".."]) ++ ["index.ts"])).
  2:{ rewrite <- !app_assoc. simpl. rewrite !absPath_app.
      unfold JsString.joinSlash. simpl. rewrite !sapp_assoc. reflexivity. }
  apply segmentOk_spec in Hf as Hf'. destruct Hf' as (Hf1 & Hf2 & Hf3 & Hf4).
  assert (∃ o out, segs ++ ["index.ts"] = o :: out ∧ o ≠ "") as (o & out & E & Ho).
  { destruct segs as [|s segs]; [by eexists _, _|].
    eexists _, _. split; [done|]. by eapply segmentOk_head. }
  rewrite E. apply normalize_absPath; [| |done].
  - apply Forall_app. split; [by apply Forall_segmentOk_noslash|].
    by repeat constructor.
  - rewrite <- E, <- !app_assoc. simpl.
    rewrite fold_left_app, (fold_normalizeStep_ok _ segs) by done. simpl.
    rewrite (normalizeStep_ok _ _ _ Hf), normalizeStep_up by done.
    rewrite rev_app_distr, app_nil_r. reflexivity.
Qed.

(** [posix.join(index, '..', '..', 'index.ts')]: the [index.ts] of the
    parent directory. *)
Lemma join_parent segs d :
  Forall (λ s, segmentOk s = true) segs → segmentOk d = true →
  posix.join [absPath (segs ++ [d; "index.ts"]); ".."; ".."; "index.ts"]
  = absPath (segs ++ ["index.ts"]).
Proof.
  intros Hsegs Hd. unfold posix.join.
  rewrite filter_cons_True by (destruct segs; done).
  change (filter (λ a : string, a ≠ "") [".."; ".."; "index.ts"])
    with [".."; ".."; "index.ts"].
  replace (JsString.joinSlash
             [absPath (segs ++ [d; "index.ts"]); ".."; ".."; "index.ts"])
    with (absPath ((segs ++ [d; "index.ts"; ".."; ".."]) ++ ["index.ts"])).
  2:{ rewrite <- !app_assoc. simpl. rewrite !absPath_app.
      unfold JsString.joinSlash. simpl. rewrite !sapp_assoc. reflexivity. }
  apply segmentOk_spec in Hd as Hd'. destruct Hd' as (Hd1 & Hd2 & Hd3 & Hd4).
  assert (∃ o out, segs ++ ["index.ts"] = o :: out ∧ o ≠ "") as (o & out & E & Ho).
  { destruct segs as [|s segs]; [by eexists _, _|].
    eexists _, _. split; [done|]. by eapply segmentOk_head. }
  rewrite E. apply normalize_absPath; [| |done].
  - apply Forall_app. split; [by apply Forall_segmentOk_noslash|].
    by repeat constructor.
  - rewrite <- E, <- !app_assoc. simpl.
    rewrite fold_left_app, (fold_normalizeStep_ok _ segs) by done.
    cbn [fold_left].
    rewrite (normalizeStep_ok _ _ _ Hd).
    rewrite !(normalizeStep_ok _ _ "index.ts") by done.
    rewrite !normalizeStep_up by done.
    rewrite rev_app_distr, app_nil_r. reflexivity.
Qed.

Lemma absPath_index_shape segs :
  Forall (λ s, segmentOk s = true) segs →
  ∃ c r, absPath (segs ++ ["index.ts"]) = String "/" (String c r)
         ∧ Ascii.eqb c "/" = false.
Proof.
  intros H. destruct H as [|s segs Hs _]; [by eexists _, _|].
  apply segmentOk_spec in Hs as (Hs & Hne & _).
  destruct s as [|c s]; [done|]. simpl in Hs.
  apply orb_false_iff in Hs as [Hc _]. by eexists _, _.
Qed.

(** [Uri.file] and [with] on the path of an [index.ts]. *)
Lemma file_index segs :
  Forall (λ s, segmentOk s = true) segs →
  UriOps.file (absPath (segs ++ ["index.ts"])) = fileUri (segs ++ ["index.ts"]).
Proof.
  intros (c & r & E & Hc)%absPath_index_shape. unfold fileUri. rewrite E.
  unfold UriOps.file, JsString.sliceFrom. simpl. rewrite Hc. simpl.
  reflexivity.
Qed.

Lemma with_path_index u segs :
  scheme u = "file" →
  authority u = "" →
  Forall (λ s, segmentOk s = true) segs →
  UriOps.with_path u (absPath (segs ++ ["index.ts"]))
  = fileUri (segs ++ ["index.ts"]).
Proof.
  intros Hs Ha (c & r & E & Hc)%absPath_index_shape.
  unfold fileUri, UriOps.with_path. rewrite E, Hs, Ha. reflexivity.
Qed.

End PathFacts.

Section WalkFinds.
Variable files : gmap Uri FsEntry.
Variable workspacePath : string.
Variable base : list string.

Hypothesis base_ok : Forall (λ s, segmentOk s = true) base.
Hypothesis base_inside :
  ∀ segs, is_Some (JsString.indexOf (absPath (base ++ segs)) workspacePath).
Hypothesis base_index : is_Some (files !! fileUri (base ++ ["index.ts"])).

(** Started [length down] directories below a directory [base] that holds
    an [index.ts], with no [index.ts] in between and enough iterations
    left, the loop stops on the [index.ts] of [base]. *)
Lemma findIndexLoop_nearest down :
  ∀ iteration probes u,
    Forall (λ s, segmentOk s = true) down →
    scheme u = "file" →
    authority u = "" →
    (∀ k, k < length down →
          files !! fileUri (base ++ take (S k) down ++ ["index.ts"]) = None) →
    iteration + length down < 100 →
    findIndexLoop files workspacePath false iteration
      (absPath (base ++ down ++ ["index.ts"])) u probes
    = mkWalk true (iteration + length down)
        (absPath (base ++ ["index.ts"]))
        (fileUri (base ++ ["index.ts"])) (S (probes + length down)).
Proof using base_ok base_inside base_index.
  induction down as [|d down IH] using rev_ind;
    intros iteration probes u Hdown Hs Ha Hnone Hlt.
  - simpl in *. rewrite findIndexLoop_step.
    rewrite bool_decide_eq_true_2 by lia. cbn [negb andb].
    rewrite with_path_index by done. cbv zeta.
    unfold HostApi.stat at 1. destruct base_index as [e ->].
    rewrite findIndexLoop_step. cbn [negb andb].
    by rewrite !Nat.add_0_r.
  - apply Forall_app in Hdown as [Hdown Hd]. apply Forall_inv in Hd.
    rewrite length_app in Hlt, Hnone. simpl in Hlt, Hnone.
    rewrite findIndexLoop_step.
    rewrite bool_decide_eq_true_2 by lia. cbn [negb andb].
    replace (base ++ (down ++ [d]) ++ ["index.ts"])
      with ((base ++ down ++ [d]) ++ ["index.ts"])
      by (by rewrite <- !app_assoc).
    rewrite with_path_index; [|done|done|].
    2:{ apply Forall_app. split; [done|]. apply Forall_app. split; [done|].
        by constructor. }
    cbv zeta. unfold HostApi.stat at 1.
    assert (files !! fileUri ((base ++ down ++ [d]) ++ ["index.ts"]) = None)
      as ->.
    { specialize (Hnone (length down)).
      rewrite take_ge in Hnone by (rewrite length_app; simpl; lia).
      rewrite <- !app_assoc. rewrite <- !app_assoc in Hnone.
      apply Hnone. lia. }
    assert (upward (fileUri ((base ++ down ++ [d]) ++ ["index.ts"]))
            = absPath (base ++ down ++ ["index.ts"])) as ->.
    { unfold upward, fileUri. cbn [path].
      replace ((base ++ down ++ [d]) ++ ["index.ts"])
        with ((base ++ down) ++ [d; "index.ts"])
        by (by rewrite <- !app_assoc).
      rewrite join_parent; [by rewrite <- app_assoc| |done].
      by apply Forall_app. }
    destruct (base_inside (down ++ ["index.ts"])) as [i ->].
    rewrite IH; [|done|done|done| |lia].
    + rewrite length_app. simpl. f_equal; lia.
    + intros k Hk. specialize (Hnone k).
      rewrite take_app_le in Hnone by lia. apply Hnone. lia.
Qed.

End WalkFinds.

(** * The barrel locator *)

(** Without a workspace folder or without an active editor, [findIndex]
    returns [null] after one message and touches nothing else. *)
Lemma findIndex_null h :
  workspaceFolders h = None ∨ workspaceFolders h = Some [] ∨ activeTextEditor h = None →
  ∃ msg, findIndex h = (HostApi.showErrorMessage msg ;;; ret None) h.
Proof.
  intros H. unfold findIndex.
  destruct (workspaceFolders h) as [[|ws0 rest]|] eqn:Hws; try by eexists.
  destruct (activeTextEditor h) eqn:Hed; [|by eexists].
  by destruct H as [?|[?|?]].
Qed.

(** C9. For every file system, workspace path and starting candidate, the
    upward walk of the barrel locator, started as [findIndex] starts it
    ([found = false], [iteration = 0]), runs its loop body, and so probes
    the file system, at most 100 times before it returns, and its counter
    [iteration] ends at 100 at most. *)
Theorem findIndex_walk_within_100 (files : gmap Uri FsEntry)
    (workspacePath indexPath : string) (indexUri : Uri) :
  walk_probes (findIndexLoop files workspacePath false 0 indexPath indexUri 0)
  ≤ 100
  ∧ walk_iteration
      (findIndexLoop files workspacePath false 0 indexPath indexUri 0)
    ≤ 100.
Proof.
  split.
  - apply (findIndexLoop_probes files workspacePath false 0).
  - apply findIndexLoop_iteration. lia.
Qed.

(** C2, amended. Let the active file be [/ws/up/down/fname], the workspace
    folder [/ws], let the directory [/ws/up] hold an [index.ts] and no
    directory strictly below it on the way to the file hold one, so that
    this [index.ts] is the nearest; if it is fewer than 100 directories
    above the file's directory, [findIndex] returns it. *)
Theorem findIndex_nearest (h : Host) (ws up down : list string)
    (fname : string) (workspaceUri : Uri) (others : list Uri)
    (document : TextDocument) :
  Forall (λ s, segmentOk s = true) (ws ++ up ++ down) →
  segmentOk fname = true →
  workspaceFolders h = Some (workspaceUri :: others) →
  path workspaceUri = absPath ws →
  activeTextEditor h = Some document →
  path (uri document) = absPath (ws ++ up ++ down ++ [fname]) →
  is_Some (fs h !! fileUri (ws ++ up ++ ["index.ts"])) →
  (∀ k, k < length down →
        fs h !! fileUri (ws ++ up ++ take (S k) down ++ ["index.ts"]) = None) →
  length down < 100 →
  findIndex h = Returned h (Some (fileUri (ws ++ up ++ ["index.ts"]))).
Proof.
  intros Hok Hf Hws Hwp Hed Hpath Hidx Hnone Hlt.
  unfold findIndex. rewrite Hws, Hed, Hwp, Hpath. cbv zeta.
  replace (ws ++ up ++ down ++ [fname]) with ((ws ++ up ++ down) ++ [fname])
    by (by rewrite <- !app_assoc).
  rewrite join_sibling by done.
  rewrite file_index by done.
  replace ((ws ++ up ++ down) ++ ["index.ts"])
    with ((ws ++ up) ++ down ++ ["index.ts"]) by (by rewrite <- !app_assoc).
  rewrite app_assoc in Hok. apply Forall_app in Hok as [Hbase Hdown].
  rewrite (findIndexLoop_nearest (fs h) (absPath ws) (ws ++ up)); try done.
  - by rewrite <- !app_assoc.
  - intros segs. rewrite <- app_assoc, absPath_app, indexOf_prefix. by eexists.
  - by rewrite <- app_assoc.
  - intros k Hk. rewrite <- app_assoc. by apply Hnone.
Qed.

Lemma findIndex_nearest_witness :
  findIndex nearestHost
  = Returned nearestHost (Some (fileUri ["ws"; "a"; "index.ts"])).
Proof.
  apply (findIndex_nearest nearestHost ["ws"] ["a"] ["b"] "Foo.ts"
           (fileUri ["ws"]) [] (mkTextDocument (fileUri ["ws"; "a"; "b"; "Foo.ts"])
                               "/ws/a/b/Foo.ts" "export class Foo {}")).
  - repeat constructor.
  - reflexivity.
  - reflexivity.
  - reflexivity.
  - reflexivity.
  - reflexivity.
  - vm_compute. by eexists.
  - intros k Hk. destruct k as [|k]; [vm_compute; reflexivity|simpl in Hk; lia].
  - simpl. lia.
Defined.

(** C2 as stated fails on a deep tree: the only [index.ts] on the chain,
    in [/w/a] below the workspace folder [/w], is not what [findIndex]
    returns; the walk gives up after 100 probes, on the candidate
    [/w/a/x/index.ts], which does not exist. *)
Lemma findIndex_misses_deep_barrel :
  fs deepHost !! fileUri ["w"; "a"; "index.ts"] = Some (File "")
  ∧ findIndex deepHost
    = Returned deepHost (Some (fileUri ["w"; "a"; "x"; "index.ts"]))
  ∧ fs deepHost !! fileUri ["w"; "a"; "x"; "index.ts"] = None
  ∧ fileUri ["w"; "a"; "x"; "index.ts"] ≠ fileUri ["w"; "a"; "index.ts"].
Proof. repeat split; [vm_compute; reflexivity..|discriminate]. Qed.

(** * The path resolver *)

(** C3, amended. With an active file of directory [F] and a barrel of
    directory [B], [getRelativePath] returns [suffix/basename], the
    basename being the file's name without [.ts], where [suffix] is [F]
    with the first occurrence of [B] removed: it is [F] without its prefix
    [B] when [B] is a prefix of [F], and [F] itself when [B] does not
    occur in [F]. *)
Theorem getRelativePath_shape (h : Host) (indexUri : Uri)
    (document : TextDocument) :
  activeTextEditor h = Some document →
  let F := posix.dirname (path (uri document)) in
  let B := posix.dirname (path indexUri) in
  let basename := posix.basename (path (uri document)) (Some ".ts") in
  ∃ suffix,
    getRelativePath indexUri h = Some (suffix +:+ "/" +:+ basename)
    ∧ suffix = JsString.replace F B ""
    ∧ (∀ rest, F = B +:+ rest → suffix = rest)
    ∧ (JsString.indexOf F B = None → suffix = F).
Proof.
  intros Hed F B basename. exists (JsString.replace F B "").
  unfold getRelativePath. rewrite Hed. repeat split.
  - intros rest ->. apply replace_prefix.
  - apply replace_absent.
Qed.

Lemma getRelativePath_shape_witness :
  ∃ suffix,
    getRelativePath (fileUri ["ws"; "a"; "index.ts"]) nearestHost
    = Some (suffix +:+ "/" +:+ "Foo")
    ∧ suffix = "/b"
    ∧ (∀ rest, "/ws/a/b" = "/ws/a" +:+ rest → suffix = rest)
    ∧ (JsString.indexOf "/ws/a/b" "/ws/a" = None → suffix = "/ws/a/b").
Proof.
  apply (getRelativePath_shape nearestHost (fileUri ["ws"; "a"; "index.ts"])
           (mkTextDocument (fileUri ["ws"; "a"; "b"; "Foo.ts"])
                           "/ws/a/b/Foo.ts" "export class Foo {}")).
  reflexivity.
Defined.

(** C3 as stated fails when the barrel directory occurs inside the file's
    directory without being a prefix of it: [/a] is not a prefix of
    [/x/a/b], yet the suffix is [/x/b], not the unmodified [/x/a/b]. *)
Lemma getRelativePath_removes_inner_occurrence :
  posix.dirname (path (fileUri ["x"; "a"; "b"; "Foo.ts"])) = "/x/a/b"
  ∧ posix.dirname (path (fileUri ["a"; "index.ts"])) = "/a"
  ∧ String.prefix "/a" "/x/a/b" = false
  ∧ getRelativePath (fileUri ["a"; "index.ts"]) strayHost = Some "/x/b/Foo"
  ∧ getRelativePath (fileUri ["a"; "index.ts"]) strayHost
    ≠ Some ("/x/a/b" +:+ "/" +:+ "Foo").
Proof. repeat split; try (vm_compute; reflexivity). discriminate. Qed.

(** * The hint scanner *)

Section ScanFacts.

Lemma exportHints_lines k lines d :
  d ∈ exportHints k lines →
  ∃ i lineText index,
    lines !! i = Some lineText
    ∧ JsString.indexOf lineText EXPORT = Some index
    ∧ d = exportDiagnostic (k + i) index.
Proof.
  revert k. induction lines as [|l lines IH]; intros k Hd; simpl in Hd.
  - by apply elem_of_nil in Hd.
  - destruct (JsString.indexOf l EXPORT) as [index|] eqn:E.
    + apply elem_of_cons in Hd as [->|Hd].
      * exists 0, l, index. by rewrite Nat.add_0_r.
      * destruct (IH _ Hd) as (i & lt & ix & H1 & H2 & ->).
        exists (S i), lt, ix. repeat split; [done..|]. f_equal. lia.
    + destruct (IH _ Hd) as (i & lt & ix & H1 & H2 & ->).
      exists (S i), lt, ix. repeat split; [done..|]. f_equal. lia.
Qed.

Lemma onLine_exportHints_before k lines i :
  i < k → onLine i (exportHints k lines) = [].
Proof.
  intros Hlt. destruct (onLine i (exportHints k lines)) as [|d ds] eqn:E; [done|].
  assert (d ∈ onLine i (exportHints k lines)) as Hd by (rewrite E; left).
  apply list_elem_of_filter in Hd
    as [Hline (j & lt & ix & _ & _ & ->)%exportHints_lines].
  simpl in Hline. lia.
Qed.

(** Exactly one marker on a line that contains [EXPORT], none on a line
    that does not. *)
Lemma onLine_exportHints k lines i lineText :
  lines !! i = Some lineText →
  onLine (k + i) (exportHints k lines) =
  match JsString.indexOf lineText EXPORT with
  | Some index => [exportDiagnostic (k + i) index]
  | None => []
  end.
Proof.
  revert k i. induction lines as [|l lines IH]; intros k i Hi; [done|].
  destruct i as [|i]; simpl in Hi.
  - injection Hi as ->. rewrite Nat.add_0_r. simpl.
    destruct (JsString.indexOf lineText EXPORT) as [index|].
    + unfold onLine. rewrite filter_cons_True by done.
      f_equal. apply onLine_exportHints_before. lia.
    + apply onLine_exportHints_before. lia.
  - replace (k + S i) with (S k + i) by lia. simpl.
    destruct (JsString.indexOf l EXPORT) as [index|].
    + unfold onLine. rewrite filter_cons_False by (simpl; lia).
      exact (IH (S k) i Hi).
    + exact (IH (S k) i Hi).
Qed.

Variable h : Host.
Variable indexUri : Uri.
Variable relPath content : string.
Hypothesis found : findIndex h = Returned h (Some indexUri).
Hypothesis resolved : getRelativePath indexUri h = Some relPath.
Hypothesis opened : fs h !! indexUri = Some (File content).

(** With a barrel that resolves and opens, the loop runs through all the
    lines: it pushes a marker for each line that contains [EXPORT] when
    the specifier is absent from the barrel's text, and none otherwise. *)
Lemma scanLines_run lines :
  ∀ lineIndex diagnostics,
    scanLines lineIndex lines diagnostics h =
    Returned h
      (Some (diagnostics ++
             match JsString.indexOf content relPath with
             | None => exportHints lineIndex lines
             | Some _ => []
             end)).
Proof using found resolved opened.
  induction lines as [|l lines IH]; intros lineIndex diagnostics.
  - simpl. unfold ret.
    by destruct (JsString.indexOf content relPath); rewrite app_nil_r.
  - simpl. destruct (JsString.indexOf l EXPORT) as [index|]; [|apply IH].
    unfold bind at 1. rewrite found, resolved.
    unfold bind, HostApi.openTextDocument. rewrite opened.
    unfold Document.getText. simpl.
    destruct (JsString.indexOf content relPath); rewrite IH; [done|].
    by rewrite <- app_assoc.
Qed.

Lemma refreshDiagnostics_run doc :
  ¬ isBarrel doc →
  refreshDiagnostics doc h =
  HostApi.diagnosticsSet (uri doc)
    (match JsString.indexOf content relPath with
     | None => exportHints 0 (Document.splitLines (text doc))
     | Some _ => []
     end) h.
Proof using found resolved opened.
  intros Hnb. unfold refreshDiagnostics.
  destruct (decide _) as [Hb|_]; [by destruct Hnb|].
  unfold bind. by rewrite scanLines_run.
Qed.

End ScanFacts.

Lemma refreshDiagnostics_barrel doc h :
  isBarrel doc → refreshDiagnostics doc h = Returned h tt.
Proof.
  intros Hb. unfold refreshDiagnostics. by destruct (decide _) as [_|Hn].
Qed.

(** C5. For a document that [refreshDiagnostics] does not take for a
    barrel file, when the barrel file resolves and opens and its text does
    not contain the computed specifier, the scan publishes for the
    document a marker set in which every line that contains [export] has
    exactly one marker, which spans the six characters of the first
    occurrence of [export] on that line, and every other line has none;
    and a document named [index.ts] is never scanned: the call returns
    at once and leaves the host as it was, whatever the text. *)
Theorem refreshDiagnostics_marks_export_lines (h : Host) (doc : TextDocument)
    (indexUri : Uri) (relPath content : string) :
  ¬ isBarrel doc →
  findIndex h = Returned h (Some indexUri) →
  getRelativePath indexUri h = Some relPath →
  fs h !! indexUri = Some (File content) →
  JsString.indexOf content relPath = None →
  (∃ markers,
     refreshDiagnostics doc h = HostApi.diagnosticsSet (uri doc) markers h
     ∧ (∀ d, d ∈ markers → line (range_start (range d)) < Document.lineCount doc)
     ∧ ∀ i lineText,
         Document.splitLines (text doc) !! i = Some lineText →
         if JsString.includes lineText EXPORT then
           ∃ index,
             onLine i markers
             = [mkDiagnostic (newRange i index i (index + 6)) "Export file"
                             SevHint (Some EXPORT_THIS_MENTION)]
             ∧ String.substring index 6 lineText = "export"
             ∧ ∀ j, j < index → String.substring j 6 lineText ≠ "export"
         else onLine i markers = [])
  ∧ (∀ barrel h', isBarrel barrel → refreshDiagnostics barrel h' = Returned h' tt).
Proof.
  intros Hnb Hfind Hrel Hopen Habsent. split; [|apply refreshDiagnostics_barrel].
  exists (exportHints 0 (Document.splitLines (text doc))). repeat split.
  - rewrite (refreshDiagnostics_run h indexUri relPath content) by done.
    by rewrite Habsent.
  - intros d (i & lt & ix & Hi & _ & ->)%exportHints_lines. simpl.
    by apply lookup_lt_Some in Hi.
  - intros i lineText Hi.
    pose proof (onLine_exportHints 0 _ i lineText Hi) as Hon. simpl in Hon.
    unfold JsString.includes.
    destruct (JsString.indexOf lineText EXPORT) as [index|] eqn:E; [|done].
    exists index. split; [done|]. by apply indexOf_first in E.
Qed.

Lemma refreshDiagnostics_marks_export_lines_witness :
  (∃ markers,
     refreshDiagnostics fooDocument nearestHost
     = HostApi.diagnosticsSet (uri fooDocument) markers nearestHost
     ∧ (∀ d, d ∈ markers → line (range_start (range d)) < Document.lineCount fooDocument)
     ∧ ∀ i lineText,
         Document.splitLines (text fooDocument) !! i = Some lineText →
         if JsString.includes lineText EXPORT then
           ∃ index,
             onLine i markers
             = [mkDiagnostic (newRange i index i (index + 6)) "Export file"
                             SevHint (Some EXPORT_THIS_MENTION)]
             ∧ String.substring index 6 lineText = "export"
             ∧ ∀ j, j < index → String.substring j 6 lineText ≠ "export"
         else onLine i markers = [])
  ∧ (∀ barrel h', isBarrel barrel → refreshDiagnostics barrel h' = Returned h' tt).
Proof.
  apply (refreshDiagnostics_marks_export_lines nearestHost fooDocument
           (fileUri ["ws"; "a"; "index.ts"]) "/b/Foo" "").
  - vm_compute. discriminate.
  - vm_compute. reflexivity.
  - vm_compute. reflexivity.
  - vm_compute. reflexivity.
  - vm_compute. reflexivity.
Defined.

(** C6. When the barrel file resolves and opens and its text contains the
    computed specifier, the scan pushes no marker for any line: the loop
    ends with the empty array, which is what a document that is not a
    barrel file gets published (a barrel file is not scanned at all). *)
Theorem refreshDiagnostics_suppressed (h : Host) (doc : TextDocument)
    (indexUri : Uri) (relPath content : string) (position : nat) :
  findIndex h = Returned h (Some indexUri) →
  getRelativePath indexUri h = Some relPath →
  fs h !! indexUri = Some (File content) →
  JsString.indexOf content relPath = Some position →
  scanLines 0 (Document.splitLines (text doc)) [] h = Returned h (Some [])
  ∧ refreshDiagnostics doc h
    = (if decide (isBarrel doc) then Returned h tt
       else HostApi.diagnosticsSet (uri doc) [] h)
  ∧ (¬ isBarrel doc →
     exportThisDiagnostics (hostOf (refreshDiagnostics doc h)) !! uri doc = Some []).
Proof.
  intros Hfind Hrel Hopen Hpresent.
  assert (¬ isBarrel doc →
          refreshDiagnostics doc h = HostApi.diagnosticsSet (uri doc) [] h) as Hrun.
  { intros Hnb. rewrite (refreshDiagnostics_run h indexUri relPath content) by done.
    by rewrite Hpresent. }
  repeat split.
  - rewrite (scanLines_run h indexUri relPath content) by done.
    by rewrite Hpresent.
  - destruct (decide (isBarrel doc)); [by apply refreshDiagnostics_barrel|auto].
  - intros Hnb. rewrite (Hrun Hnb). simpl. apply lookup_insert_eq.
Qed.

Lemma refreshDiagnostics_suppressed_witness :
  scanLines 0 (Document.splitLines (text fooDocument)) [] exportedHost
  = Returned exportedHost (Some [])
  ∧ refreshDiagnostics fooDocument exportedHost
    = (if decide (isBarrel fooDocument) then Returned exportedHost tt
       else HostApi.diagnosticsSet (uri fooDocument) [] exportedHost)
  ∧ (¬ isBarrel fooDocument →
     exportThisDiagnostics (hostOf (refreshDiagnostics fooDocument exportedHost))
       !! uri fooDocument = Some []).
Proof.
  apply (refreshDiagnostics_suppressed exportedHost fooDocument
           (fileUri ["ws"; "a"; "index.ts"]) "/b/Foo"
           "export * from './b/Foo';" 16).
  - vm_compute. reflexivity.
  - vm_compute. reflexivity.
  - vm_compute. reflexivity.
  - vm_compute. reflexivity.
Defined.

(** * Whose barrel, whose specifier *)

Lemma findIndex_active h workspaceUri others active :
  workspaceFolders h = Some (workspaceUri :: others) →
  activeTextEditor h = Some active →
  findIndex h = Returned h (Some (barrelOf (fs h) workspaceUri active)).
Proof. intros Hws Hed. unfold findIndex. by rewrite Hws, Hed. Qed.

Lemma getRelativePath_active h indexUri active :
  activeTextEditor h = Some active →
  getRelativePath indexUri h = Some (specifierOf active indexUri).
Proof. intros Hed. unfold getRelativePath. by rewrite Hed. Qed.

(** C10. A scan of a document [doc] that is not a barrel file looks the
    barrel up from the path of the active editor's document and checks the
    barrel's text for the specifier of that document: [doc] gets all its
    [export] markers or none according to the active file alone.  So, with
    [Foo.ts] active, [Bar.ts] gets no marker when the barrel re-exports
    [Foo] but not [Bar], and gets its marker when the barrel re-exports
    [Bar] but not [Foo]. *)
Theorem scanner_follows_active_editor (h : Host) (doc active : TextDocument)
    (workspaceUri : Uri) (others : list Uri) (content : string) :
  workspaceFolders h = Some (workspaceUri :: others) →
  activeTextEditor h = Some active →
  fs h !! barrelOf (fs h) workspaceUri active = Some (File content) →
  ¬ isBarrel doc →
  refreshDiagnostics doc h
  = HostApi.diagnosticsSet (uri doc)
      (if JsString.includes content
            (specifierOf active (barrelOf (fs h) workspaceUri active))
       then []
       else exportHints 0 (Document.splitLines (text doc))) h
  ∧ (refreshDiagnostics barSibling (siblingHost "export * from './Foo';")
     = HostApi.diagnosticsSet (uri barSibling) []
         (siblingHost "export * from './Foo';")
     ∧ JsString.includes "export * from './Foo';" "/Bar" = false)
  ∧ (refreshDiagnostics barSibling (siblingHost "export * from './Bar';")
     = HostApi.diagnosticsSet (uri barSibling) [exportDiagnostic 0 0]
         (siblingHost "export * from './Bar';")
     ∧ JsString.includes "export * from './Bar';" "/Bar" = true).
Proof.
  intros Hws Hed Hopen Hnb. split; [|by vm_compute].
  rewrite (refreshDiagnostics_run h _ _ content
             (findIndex_active h _ _ _ Hws Hed)
             (getRelativePath_active h _ _ Hed) Hopen doc Hnb).
  unfold JsString.includes. by destruct (JsString.indexOf content _).
Qed.

Lemma scanner_follows_active_editor_witness :
  refreshDiagnostics barSibling (siblingHost "export * from './Foo';")
  = HostApi.diagnosticsSet (uri barSibling)
      (if JsString.includes "export * from './Foo';"
            (specifierOf fooSibling
               (barrelOf (fs (siblingHost "export * from './Foo';"))
                         (fileUri ["ws"]) fooSibling))
       then []
       else exportHints 0 (Document.splitLines (text barSibling)))
      (siblingHost "export * from './Foo';")
  ∧ (refreshDiagnostics barSibling (siblingHost "export * from './Foo';")
     = HostApi.diagnosticsSet (uri barSibling) []
         (siblingHost "export * from './Foo';")
     ∧ JsString.includes "export * from './Foo';" "/Bar" = false)
  ∧ (refreshDiagnostics barSibling (siblingHost "export * from './Bar';")
     = HostApi.diagnosticsSet (uri barSibling) [exportDiagnostic 0 0]
         (siblingHost "export * from './Bar';")
     ∧ JsString.includes "export * from './Bar';" "/Bar" = true).
Proof.
  apply (scanner_follows_active_editor (siblingHost "export * from './Foo';")
           barSibling fooSibling (fileUri ["ws"]) [] "export * from './Foo';").
  - reflexivity.
  - reflexivity.
  - vm_compute. reflexivity.
  - vm_compute. discriminate.
Defined.

(** * Recompute triggers and the marker set *)

Section Replacement.

Lemma findIndex_withDiagnostics h c :
  findIndex (withDiagnostics h c)
  = mapHost (λ h', withDiagnostics h' c) (findIndex h).
Proof.
  unfold findIndex. simpl.
  destruct (workspaceFolders h) as [[|ws0 rest]|]; [done| |done].
  by destruct (activeTextEditor h).
Qed.

(** The loop over the lines neither reads nor writes the collection. *)
Lemma scanLines_withDiagnostics c lines :
  ∀ lineIndex diagnostics h,
    scanLines lineIndex lines diagnostics (withDiagnostics h c)
    = mapHost (λ h', withDiagnostics h' c)
              (scanLines lineIndex lines diagnostics h).
Proof.
  induction lines as [|l lines IH]; intros lineIndex diagnostics h; [done|].
  simpl. destruct (JsString.indexOf l EXPORT) as [index|]; [|apply IH].
  unfold bind at 1 3. rewrite findIndex_withDiagnostics.
  destruct (findIndex h) as [h' [indexUri|]|h' err]; simpl; [|done..].
  unfold getRelativePath. simpl.
  destruct (activeTextEditor h') as [document|]; [|done].
  unfold bind, HostApi.openTextDocument. simpl.
  destruct (fs h' !! indexUri) as [[content|]|]; [|done..].
  simpl. by destruct (JsString.indexOf content _).
Qed.

Lemma handle_trigger ev h doc :
  triggers ev h doc → handle ev h = refreshDiagnostics doc h.
Proof.
  destruct ev as [|[d|]|d|d]; simpl; try done.
  - by intros ->.
  - by intros [= ->].
  - by intros ->.
Qed.

Lemma refreshDiagnostics_completed doc h h1 markers previous :
  ¬ isBarrel doc →
  scanLines 0 (Document.splitLines (text doc)) [] h = Returned h1 (Some markers) →
  refreshDiagnostics doc (withDiagnostics h previous)
  = Returned (withDiagnostics h1 (<[uri doc := markers]> previous)) tt.
Proof.
  intros Hnb Hscan. unfold refreshDiagnostics.
  destruct (decide _) as [Hb|_]; [by destruct Hnb|].
  unfold bind. by rewrite scanLines_withDiagnostics, Hscan.
Qed.

End Replacement.

(** C8, amended. On every recompute trigger (initial activation, change of
    the active editor, change of the document's text) for a document that
    is not a barrel file and whose scan runs through all its lines, the
    collection afterwards holds for the document exactly the newly
    computed markers, whatever it held before: the previous set is neither
    merged with the new one nor kept; the sets of other documents stay. *)
Theorem refresh_replaces_marker_set (ev : Event) (doc : TextDocument)
    (h h1 : Host) (markers : list Diagnostic) :
  triggers ev h doc →
  ¬ isBarrel doc →
  scanLines 0 (Document.splitLines (text doc)) [] h = Returned h1 (Some markers) →
  replacesMarkerSet ev doc h
  ∧ ∀ previous,
      exportThisDiagnostics (hostOf (handle ev (withDiagnostics h previous)))
      = <[uri doc := markers]> previous.
Proof.
  intros Htr Hnb Hscan.
  assert (∀ previous,
            handle ev (withDiagnostics h previous)
            = Returned (withDiagnostics h1 (<[uri doc := markers]> previous)) tt)
    as Hrun.
  { intros previous. rewrite (handle_trigger ev _ doc).
    - by apply refreshDiagnostics_completed.
    - by destruct ev. }
  split.
  - intros previous. unfold markersAfter. rewrite !Hrun. simpl.
    by rewrite !lookup_insert_eq.
  - intros previous. by rewrite Hrun.
Qed.

Lemma refresh_replaces_marker_set_witness :
  replacesMarkerSet (DidChangeTextDocument fooDocument) fooDocument nearestHost
  ∧ ∀ previous,
      exportThisDiagnostics
        (hostOf (handle (DidChangeTextDocument fooDocument)
                        (withDiagnostics nearestHost previous)))
      = <[uri fooDocument := [exportDiagnostic 0 0]]> previous.
Proof.
  apply (refresh_replaces_marker_set (DidChangeTextDocument fooDocument)
           fooDocument nearestHost nearestHost [exportDiagnostic 0 0]).
  - reflexivity.
  - vm_compute. discriminate.
  - vm_compute. reflexivity.
Defined.

(** C8 as stated fails when the scan leaves by one of its early returns:
    there is no active editor, [findIndex] returns [null] at the first
    line that contains [export], and the old marker of line 0 stays in the
    collection although [export] now stands on line 1. *)
Lemma text_change_keeps_stale_markers :
  triggers (DidChangeTextDocument movedDocument) staleHost movedDocument
  ∧ ¬ isBarrel movedDocument
  ∧ Document.splitLines (text movedDocument) = [""; "export class Foo {}"]
  ∧ markersAfter (DidChangeTextDocument movedDocument) movedDocument staleHost
    = Some [exportDiagnostic 0 0]
  ∧ ¬ replacesMarkerSet (DidChangeTextDocument movedDocument) movedDocument
        staleHost.
Proof.
  split; [reflexivity|]. split; [vm_compute; discriminate|].
  split; [reflexivity|]. split; [vm_compute; reflexivity|].
  intros H. specialize (H (exportThisDiagnostics staleHost)).
  vm_compute in H. discriminate.
Qed.

(** * No [index.ts] on the way up *)

(** With a workspace folder and an active editor the export command shows
    no message at all, whether an [index.ts] exists or not. *)
Lemma exportCommand_shows_no_message h workspaceUri others document :
  workspaceFolders h = Some (workspaceUri :: others) →
  activeTextEditor h = Some document →
  errorMessages (hostOf (exportCommand h)) = errorMessages h.
Proof.
  intros Hws Hed. unfold exportCommand, bind at 1.
  rewrite (findIndex_active h _ _ _ Hws Hed).
  rewrite (getRelativePath_active h _ _ Hed).
  unfold bind, HostApi.openTextDocument.
  by destruct (fs h !! _) as [[content|]|].
Qed.

(** C1, on the code. In the workspace [/ws] with the active file
    [/ws/a/b/Foo.ts] and no [index.ts] in [/ws/a/b], [/ws/a] or [/ws],
    [findIndex] returns the last candidate of its walk, [/ws/index.ts],
    not [null]; the export command therefore does not show "Unable to find
    an index.ts file to export to", nor any other message: it rejects when
    it opens the missing file.  No file is modified. *)
Theorem exportCommand_without_index :
  (∀ u, fs noIndexHost !! u = None)
  ∧ findIndex noIndexHost
    = Returned noIndexHost (Some (fileUri ["ws"; "index.ts"]))
  ∧ exportCommand noIndexHost = Rejected noIndexHost "cannot open the document"
  ∧ errorMessages (hostOf (exportCommand noIndexHost)) = []
  ∧ fs (hostOf (exportCommand noIndexHost)) = fs noIndexHost.
Proof.
  split; [intros u; apply lookup_empty|].
  repeat split; vm_compute; reflexivity.
Qed.

(** The guard of the scanner: without a workspace folder or without an
    active editor the scan returns, at the first line that contains
    [EXPORT] if there is one, and neither the collection nor the files
    change. *)
Lemma scanLines_guard h lines :
  workspaceFolders h = None ∨ workspaceFolders h = Some []
  ∨ activeTextEditor h = None →
  ∀ lineIndex diagnostics,
    ∃ h' r,
      scanLines lineIndex lines diagnostics h = Returned h' r
      ∧ (r = None ∨ r = Some diagnostics)
      ∧ exportThisDiagnostics h' = exportThisDiagnostics h
      ∧ fs h' = fs h.
Proof.
  intros Hguard. destruct (findIndex_null h Hguard) as [msg Hnull].
  induction lines as [|l lines IH]; intros k ds.
  - exists h, (Some ds). repeat split. by right.
  - simpl. destruct (JsString.indexOf l EXPORT) as [index|]; [|apply IH].
    unfold bind at 1. rewrite Hnull. simpl.
    eexists _, None. repeat split. by left.
Qed.

(** With a workspace folder and an active editor, when the URI the walk
    ends on cannot be opened, the scan of any text with a line that
    contains [EXPORT] rejects. *)
Lemma scanLines_rejects h workspaceUri others active lines :
  workspaceFolders h = Some (workspaceUri :: others) →
  activeTextEditor h = Some active →
  (∀ content, fs h !! barrelOf (fs h) workspaceUri active ≠ Some (File content)) →
  (∃ i lineText, lines !! i = Some lineText
                 ∧ JsString.includes lineText EXPORT = true) →
  ∀ lineIndex diagnostics,
    scanLines lineIndex lines diagnostics h
    = Rejected h "cannot open the document".
Proof.
  intros Hws Hed Hmissing.
  induction lines as [|l lines IH]; intros (i & lineText & Hi & Hinc) k ds.
  - done.
  - simpl. unfold JsString.includes in Hinc.
    destruct (JsString.indexOf l EXPORT) as [index|] eqn:E.
    + unfold bind at 1. rewrite (findIndex_active h _ _ _ Hws Hed).
      rewrite (getRelativePath_active h _ _ Hed).
      unfold bind, HostApi.openTextDocument.
      destruct (fs h !! _) as [[content|]|] eqn:Hopen; [|done..].
      by destruct (Hmissing content).
    + apply IH. destruct i as [|i]; simpl in Hi.
      * injection Hi as ->. by rewrite E in Hinc.
      * by exists i, lineText.
Qed.

(** C4, on the code. In the same workspace a scan of [Foo.ts], whose one
    line contains [export], does not return: [findIndex] hands back the
    candidate [/ws/index.ts], opening it fails and the rejection leaves
    [refreshDiagnostics]; the handlers of a text change and of the
    activation pass it on.  The collection is left as it was. *)
Theorem refreshDiagnostics_without_index :
  ¬ isBarrel fooDocument
  ∧ (∀ u, fs noIndexHost !! u = None)
  ∧ refreshDiagnostics fooDocument noIndexHost
    = Rejected noIndexHost "cannot open the document"
  ∧ handle (DidChangeTextDocument fooDocument) noIndexHost
    = Rejected noIndexHost "cannot open the document"
  ∧ handle Activate noIndexHost = Rejected noIndexHost "cannot open the document".
Proof.
  split; [vm_compute; discriminate|].
  split; [intros u; apply lookup_empty|].
  repeat split; vm_compute; reflexivity.
Qed.

(** * The export command *)

Lemma insert_at_end s value :
  Document.insert s (mkPosition (length (Document.splitLines s)) 0) value
  = s +:+ value.
Proof.
  unfold Document.insert, Document.offsetAt, JsString.slice, JsString.sliceFrom.
  cbn [line]. rewrite Nat.ltb_irrefl, Nat.sub_0_r, Nat.sub_diag.
  by rewrite substring_full, substring_past, sapp_nil_r.
Qed.

(** * Lines and the text put at the end *)

Section Lines.

Lemma splitLines_cons c s' :
  Document.splitLines (String c s')
  = if Ascii.eqb c Document.LF then "" :: Document.splitLines s'
    else if Ascii.eqb c Document.CR then
      match s' with
      | String c' s'' =>
          if Ascii.eqb c' Document.LF then "" :: Document.splitLines s''
          else "" :: Document.splitLines s'
      | EmptyString => "" :: Document.splitLines s'
      end
    else match Document.splitLines s' with
         | [] => [String c ""]
         | l :: ls => String c l :: ls
         end.
Proof. reflexivity. Qed.

Lemma splitLines_nonempty s : Document.splitLines s ≠ [].
Proof.
  destruct s as [|c s]; [done|]. simpl.
  destruct (Ascii.eqb c Document.LF); [done|].
  destruct (Ascii.eqb c Document.CR).
  - destruct s as [|c' s']; [done|]. by destruct (Ascii.eqb c' Document.LF).
  - by destruct (Document.splitLines s).
Qed.

Lemma splitLines_free s : lineBreakFree s = true → Document.splitLines s = [s].
Proof.
  induction s as [|c s IH]; [done|]. simpl.
  intros [[Hlf Hcr]%andb_prop Hs]%andb_prop.
  apply negb_true_iff in Hlf, Hcr. rewrite Hlf, Hcr, (IH Hs). done.
Qed.

(** A text without terminator put at the end of [content] continues the
    last line of [content]; the lines before it stay as they are. *)
Lemma splitLines_app_free s :
  lineBreakFree s = true →
  ∀ n content, String.length content ≤ n →
    ∃ init lastLine,
      Document.splitLines content = init ++ [lastLine]
      ∧ Document.splitLines (content +:+ s) = init ++ [lastLine +:+ s].
Proof.
  intros Hs. induction n as [|n IH]; intros content Hlen.
  - destruct content; [|simpl in Hlen; lia].
    exists [], "". split; [done|]. rewrite sapp_nil_l. by apply splitLines_free.
  - destruct content as [|c content].
    { exists [], "". split; [done|]. rewrite sapp_nil_l. by apply splitLines_free. }
    simpl in Hlen. rewrite sapp_cons. simpl.
    destruct (Ascii.eqb c Document.LF).
    { destruct (IH content ltac:(lia)) as (init & l & -> & ->).
      by exists ("" :: init), l. }
    destruct (Ascii.eqb c Document.CR).
    + destruct content as [|c' content'].
      * rewrite sapp_nil_l. rewrite (splitLines_free s Hs).
        exists [""], "". split; [done|]. rewrite sapp_nil_l.
        destruct s as [|c' s']; [done|]. simpl in Hs.
        apply andb_prop in Hs as [[Hlf _]%andb_prop _].
        apply negb_true_iff in Hlf. rewrite Hlf.
        simpl in *. done.
      * rewrite sapp_cons. simpl in Hlen.
        destruct (Ascii.eqb c' Document.LF).
        -- destruct (IH content' ltac:(lia)) as (init & l & -> & ->).
           by exists ("" :: init), l.
        -- destruct (IH (String c' content') ltac:(simpl; lia))
             as (init & l & -> & Hl).
           rewrite sapp_cons in Hl. rewrite Hl.
           by exists ("" :: init), l.
    + destruct (IH content ltac:(lia)) as (init & l & -> & ->).
      destruct init as [|x init]; simpl.
      * exists [], (String c l). by rewrite sapp_cons.
      * by exists (String c x :: init), l.
Qed.

(** The last line of a text that is empty or ends with a terminator is
    empty. *)
Lemma closedText_last_line :
  ∀ n content, String.length content ≤ n → closedText content →
    last (Document.splitLines content) = Some "".
Proof.
  induction n as [|n IH]; intros content Hlen Hclosed.
  { destruct content; [done|simpl in Hlen; lia]. }
  destruct content as [|c content]; [done|].
  assert (content = "" ∨ closedText content ∧ content ≠ "") as Hrest.
  { destruct content as [|c' content']; [by left|right]. split; [|done].
    destruct Hclosed as [|(body & e & Hbody & He)]; [done|].
    destruct body as [|b body].
    - rewrite sapp_nil_l in Hbody. done.
    - rewrite sapp_cons in Hbody. injection Hbody as _ ->.
      right. by exists body, e. }
  assert (content = "" → c = Document.LF ∨ c = Document.CR) as Hone.
  { intros ->. destruct Hclosed as [|(body & e & Hbody & He)]; [done|].
    destruct body as [|b body].
    - rewrite sapp_nil_l in Hbody. by injection Hbody as ->.
    - rewrite sapp_cons in Hbody. injection Hbody as _ Hb.
      by destruct body. }
  simpl in Hlen. simpl.
  destruct (Ascii.eqb c Document.LF) eqn:Hlf.
  { destruct Hrest as [->|[Hc _]]; [done|].
    rewrite last_cons, (IH content) by (done || lia). done. }
  destruct (Ascii.eqb c Document.CR) eqn:Hcr.
  - destruct content as [|c' content']; [done|].
    destruct Hrest as [|[Hc _]]; [done|]. simpl in Hlen.
    destruct (Ascii.eqb c' Document.LF) eqn:Hlf'.
    + assert (content' = "" ∨ closedText content') as [->|Hc'].
      { destruct content' as [|c2 content2]; [by left|right].
        destruct Hc as [|(body & e & Hbody & He)]; [done|].
        destruct body as [|b body].
        - rewrite sapp_nil_l in Hbody. done.
        - rewrite sapp_cons in Hbody. injection Hbody as _ ->.
          right. by exists body, e. }
      * done.
      * rewrite last_cons, (IH content') by (done || lia). done.
    + rewrite last_cons, (IH (String c' content')) by (done || simpl; lia). done.
  - destruct Hrest as [->|[Hc Hne]].
    { destruct (Hone eq_refl) as [->| ->]; vm_compute in Hlf, Hcr; congruence. }
    pose proof (IH content ltac:(lia) Hc) as Hlast.
    destruct (Document.splitLines content) as [|l ls] eqn:Hsplit; [done|].
    destruct ls as [|l' ls].
    + simpl in Hlast. injection Hlast as ->.
      destruct content as [|c' content']; [done|].
      exfalso. rewrite splitLines_cons in Hsplit.
      destruct (Ascii.eqb c' Document.LF).
      { injection Hsplit as H. by apply splitLines_nonempty in H. }
      destruct (Ascii.eqb c' Document.CR).
      * destruct content' as [|c2 content2]; [done|].
        destruct (Ascii.eqb c2 Document.LF);
          injection Hsplit as H;
          [exact (splitLines_nonempty content2 H)
          |exact (splitLines_nonempty (String c2 content2) H)].
      * by destruct (Document.splitLines content') as [|? [|? ?]].
    + by rewrite !last_cons_cons in *.
Qed.

(** A statement without terminator put at the end of a text that is empty
    or ends with a terminator is a line after the lines of the text. *)
Lemma placedAfterLastLine_closed content statement :
  lineBreakFree statement = true →
  closedText content →
  placedAfterLastLine content statement (content +:+ statement).
Proof.
  intros Hfree Hclosed. unfold placedAfterLastLine, existingLines.
  pose proof (closedText_last_line _ content (le_n _) Hclosed) as Hlast.
  rewrite decide_True by done.
  destruct (splitLines_app_free statement Hfree _ content (le_n _))
    as (init & l & Hsplit & ->).
  rewrite Hsplit in *. rewrite last_snoc in Hlast. injection Hlast as ->.
  by rewrite removelast_last, sapp_nil_l.
Qed.

Lemma lineBreakFree_app s t :
  lineBreakFree (s +:+ t) = lineBreakFree s && lineBreakFree t.
Proof.
  induction s as [|c s IH]; [by rewrite sapp_nil_l|].
  rewrite sapp_cons. simpl. rewrite IH. by rewrite !andb_assoc.
Qed.

End Lines.

(** C7. When the export command returns, with [indexUri] the barrel it
    resolved and [relPath] the specifier it computed, the barrel file held
    a text and now holds that text followed by exactly
    [export * from '.relPath';]: the statement is put at the very end of
    what the file contained, no line terminator is added and nothing else
    is changed in it.  When the specifier holds no line terminator and the
    text was empty or ended with a line terminator, the statement is a
    line of its own after the last existing line.  For the workspace
    [/ws], the active file [/ws/a/b/Foo.ts] and the barrel
    [/ws/a/index.ts], whose one line a line feed ends, the specifier is
    [/b/Foo] and the line put after that line is
    [export * from './b/Foo';]. *)
Theorem exportCommand_appends (h h' : Host) (indexUri : Uri) (relPath : string) :
  findIndex h = Returned h (Some indexUri) →
  getRelativePath indexUri h = Some relPath →
  exportCommand h = Returned h' tt →
  (∃ content,
     fs h !! indexUri = Some (File content)
     ∧ fs h' = <[indexUri := File (content +:+ "export * from '." +:+ relPath +:+ "';")]>
                 (fs h)
     ∧ (lineBreakFree relPath = true →
        closedText content →
        placedAfterLastLine content ("export * from '." +:+ relPath +:+ "';")
          (content +:+ "export * from '." +:+ relPath +:+ "';")))
  ∧ (findIndex barrelHost
     = Returned barrelHost (Some (fileUri ["ws"; "a"; "index.ts"]))
     ∧ getRelativePath (fileUri ["ws"; "a"; "index.ts"]) barrelHost
       = Some "/b/Foo"
     ∧ fs (hostOf (exportCommand barrelHost)) !! fileUri ["ws"; "a"; "index.ts"]
       = Some (File (barrelText +:+ "export * from './b/Foo';"))
     ∧ Document.splitLines (barrelText +:+ "export * from './b/Foo';")
       = ["export * from './Bar';"; "export * from './b/Foo';"]).
Proof.
  intros Hfind Hrel Hrun. split; [|by vm_compute].
  unfold exportCommand, bind at 1 in Hrun. rewrite Hfind, Hrel in Hrun.
  unfold bind at 1, HostApi.openTextDocument in Hrun.
  destruct (fs h !! indexUri) as [[content|]|] eqn:Hopen; [|done..].
  exists content. split; [done|]. split.
  - unfold tryCatch, bind, HostApi.showTextDocument, HostApi.editInsert in Hrun.
    simpl in Hrun. injection Hrun as <-. simpl.
    unfold Document.lineCount. simpl. by rewrite insert_at_end.
  - intros Hfree Hclosed. apply placedAfterLastLine_closed; [|done].
    by rewrite !lineBreakFree_app, Hfree.
Qed.

Lemma exportCommand_appends_witness :
  ((∃ content,
      fs barrelHost !! fileUri ["ws"; "a"; "index.ts"] = Some (File content)
      ∧ fs (hostOf (exportCommand barrelHost))
        = <[fileUri ["ws"; "a"; "index.ts"] :=
              File (content +:+ "export * from '." +:+ "/b/Foo" +:+ "';")]>
            (fs barrelHost)
      ∧ (lineBreakFree "/b/Foo" = true →
         closedText content →
         placedAfterLastLine content ("export * from '." +:+ "/b/Foo" +:+ "';")
           (content +:+ "export * from '." +:+ "/b/Foo" +:+ "';")))
   ∧ (findIndex barrelHost
      = Returned barrelHost (Some (fileUri ["ws"; "a"; "index.ts"]))
      ∧ getRelativePath (fileUri ["ws"; "a"; "index.ts"]) barrelHost
        = Some "/b/Foo"
      ∧ fs (hostOf (exportCommand barrelHost)) !! fileUri ["ws"; "a"; "index.ts"]
        = Some (File (barrelText +:+ "export * from './b/Foo';"))
      ∧ Document.splitLines (barrelText +:+ "export * from './b/Foo';")
        = ["export * from './Bar';"; "export * from './b/Foo';"]))
  ∧ lineBreakFree "/b/Foo" = true
  ∧ closedText barrelText.
Proof.
  split; [|split].
  - apply (exportCommand_appends barrelHost (hostOf (exportCommand barrelHost))
             (fileUri ["ws"; "a"; "index.ts"]) "/b/Foo").
    + vm_compute. reflexivity.
    + vm_compute. reflexivity.
    + vm_compute. reflexivity.
  - reflexivity.
  - right. exists "export * from './Bar';", Document.LF. split; [reflexivity|by left].
Defined.

(** C7 as stated fails when no terminator ends the last line of the
    barrel: the insert position [(lineCount, 0)] lies past the last line
    and is moved to the end of the text, so the statement continues the
    last line.  The barrel has one line before the export and one line
    after it, and the statement is not a line of it. *)
Lemma exportCommand_continues_last_line :
  findIndex openBarrelHost
  = Returned openBarrelHost (Some (fileUri ["ws"; "a"; "index.ts"]))
  ∧ getRelativePath (fileUri ["ws"; "a"; "index.ts"]) openBarrelHost
    = Some "/b/Foo"
  ∧ fs openBarrelHost !! fileUri ["ws"; "a"; "index.ts"]
    = Some (File "export * from './Bar';")
  ∧ (∃ h', exportCommand openBarrelHost = Returned h' tt
           ∧ fs h' !! fileUri ["ws"; "a"; "index.ts"]
             = Some (File "export * from './Bar';export * from './b/Foo';"))
  ∧ Document.splitLines "export * from './Bar';export * from './b/Foo';"
    = ["export * from './Bar';export * from './b/Foo';"]
  ∧ ¬ ("export * from './b/Foo';"
       ∈ Document.splitLines "export * from './Bar';export * from './b/Foo';")
  ∧ ¬ placedAfterLastLine "export * from './Bar';" "export * from './b/Foo';"
        "export * from './Bar';export * from './b/Foo';".
Proof.
  split; [by vm_compute|]. split; [by vm_compute|]. split; [by vm_compute|].
  split.
  { eexists. split; [vm_compute; reflexivity|]. by vm_compute. }
  split; [by vm_compute|]. split.
  - intros Hin. vm_compute in Hin.
    apply list_elem_of_singleton in Hin. discriminate.
  - unfold placedAfterLastLine. vm_compute. discriminate.
Qed.

(** * More on the upward walk *)

Section WalkSound.
Variable files : gmap Uri FsEntry.
Variable workspacePath : string.

(** Whether the walk found a file can be read off the URI it ends on:
    that URI is the candidate probed last, and the probe succeeded exactly
    when [found] is set. *)
Lemma findIndexLoop_found_stat remaining :
  ∀ iteration indexPath indexUri probes,
    100 - iteration = remaining →
    iteration < 100 ∨ HostApi.stat files indexUri = false →
    walk_found (findIndexLoop files workspacePath false iteration indexPath
                              indexUri probes)
    = HostApi.stat files
        (walk_indexUri (findIndexLoop files workspacePath false iteration
                                      indexPath indexUri probes)).
Proof.
  induction remaining as [|k IH]; intros iteration indexPath indexUri probes Hk Hpre.
  - rewrite findIndexLoop_step. rewrite bool_decide_eq_false_2 by lia.
    simpl. destruct Hpre as [?| ->]; [lia|done].
  - rewrite findIndexLoop_step. rewrite bool_decide_eq_true_2 by lia.
    cbn [negb andb]. cbv zeta.
    destruct (HostApi.stat files (UriOps.with_path indexUri indexPath)) eqn:Hstat.
    + rewrite findIndexLoop_step. by cbn.
    + destruct (JsString.indexOf _ workspacePath); [|by cbn].
      apply IH; [lia|by right].
Qed.

End WalkSound.

(** X1. With a workspace folder and an active editor, the URI [findIndex]
    returns exists in the file system exactly when its walk found an
    [index.ts]; after a walk that found none it is a candidate that was
    probed and is missing. *)
Theorem findIndex_result_exists_iff_found (h : Host) (workspaceUri : Uri)
    (others : list Uri) (active : TextDocument) :
  workspaceFolders h = Some (workspaceUri :: others) →
  activeTextEditor h = Some active →
  findIndex h
  = Returned h (Some (walk_indexUri (walkOf (fs h) workspaceUri active)))
  ∧ (walk_found (walkOf (fs h) workspaceUri active) = true
     ↔ is_Some (fs h !! walk_indexUri (walkOf (fs h) workspaceUri active))).
Proof.
  intros Hws Hed. split; [exact (findIndex_active h _ others _ Hws Hed)|].
  unfold walkOf.
  rewrite (findIndexLoop_found_stat (fs h) (path workspaceUri) 100) by (lia || (left; lia)).
  unfold HostApi.stat. by destruct (fs h !! _).
Qed.

Lemma findIndex_result_exists_iff_found_witness :
  findIndex noIndexHost
  = Returned noIndexHost
      (Some (walk_indexUri (walkOf (fs noIndexHost) (fileUri ["ws"]) fooDocument)))
  ∧ (walk_found (walkOf (fs noIndexHost) (fileUri ["ws"]) fooDocument) = true
     ↔ is_Some (fs noIndexHost
                  !! walk_indexUri (walkOf (fs noIndexHost) (fileUri ["ws"])
                                           fooDocument))).
Proof.
  apply (findIndex_result_exists_iff_found noIndexHost (fileUri ["ws"]) []
           fooDocument); reflexivity.
Defined.

(** * What a scan touches *)

Lemma onlyMessagesAdded_refl h : onlyMessagesAdded h h.
Proof. repeat split. exists []. by rewrite app_nil_r. Qed.

Lemma findIndex_precondition h msg :
  preconditionMessage h = Some msg →
  findIndex h = (HostApi.showErrorMessage msg ;;; ret None) h.
Proof.
  unfold preconditionMessage, findIndex.
  destruct (workspaceFolders h) as [[|ws0 rest]|]; try by intros [= <-].
  destruct (activeTextEditor h); [done|]. by intros [= <-].
Qed.

Lemma findIndex_no_precondition h :
  preconditionMessage h = None →
  ∃ workspaceUri others active,
    workspaceFolders h = Some (workspaceUri :: others)
    ∧ activeTextEditor h = Some active.
Proof.
  unfold preconditionMessage.
  destruct (workspaceFolders h) as [[|ws0 rest]|]; try done.
  destruct (activeTextEditor h) as [active|]; [|done].
  intros _. by exists ws0, rest, active.
Qed.

(** The loop over the lines changes nothing in the host but the list of
    messages shown. *)
Lemma scanLines_onlyMessagesAdded lines :
  ∀ lineIndex diagnostics h,
    onlyMessagesAdded h (hostOf (scanLines lineIndex lines diagnostics h)).
Proof.
  induction lines as [|l lines IH]; intros k ds h.
  - apply onlyMessagesAdded_refl.
  - simpl. destruct (JsString.indexOf l EXPORT) as [index|]; [|apply IH].
    unfold bind at 1.
    destruct (preconditionMessage h) as [msg|] eqn:Hpre.
    + rewrite (findIndex_precondition h msg Hpre). simpl.
      repeat split. by eexists.
    + destruct (findIndex_no_precondition h Hpre) as (w & ws & a & Hws & Hed).
      rewrite (findIndex_active h _ _ _ Hws Hed).
      rewrite (getRelativePath_active h _ _ Hed).
      unfold bind, HostApi.openTextDocument.
      destruct (fs h !! _) as [[content|]|]; try apply onlyMessagesAdded_refl.
      simpl. destruct (JsString.indexOf content _); apply IH.
Qed.

Lemma mentionsExport_cons l lines :
  mentionsExport (l :: lines)
  = match JsString.indexOf l EXPORT with
    | Some _ => true
    | None => mentionsExport lines
    end.
Proof.
  unfold mentionsExport, JsString.includes. simpl.
  by destruct (JsString.indexOf l EXPORT).
Qed.

(** Lines without [EXPORT] are passed over: no lookup, no message. *)
Lemma scanLines_no_export lines :
  mentionsExport lines = false →
  ∀ lineIndex diagnostics h,
    scanLines lineIndex lines diagnostics h = Returned h (Some diagnostics).
Proof.
  induction lines as [|l lines IH]; intros Hno k ds h; [done|].
  rewrite mentionsExport_cons in Hno. simpl.
  destruct (JsString.indexOf l EXPORT); [done|]. by apply IH.
Qed.

Lemma refreshDiagnostics_no_export h doc :
  ¬ isBarrel doc →
  mentionsExport (Document.splitLines (text doc)) = false →
  refreshDiagnostics doc h = HostApi.diagnosticsSet (uri doc) [] h.
Proof.
  intros Hnb Hno. unfold refreshDiagnostics.
  destruct (decide _) as [Hb|_]; [by destruct Hnb|].
  unfold bind. by rewrite scanLines_no_export.
Qed.

(** X2. A document that is not a barrel file and has no line containing
    [export] gets its marker set emptied by every scan, whatever the
    workspace, the active editor and the files are: no barrel is looked
    up, no message is shown and the scan cannot reject. *)
Theorem refreshDiagnostics_clears_without_export (h : Host) (doc : TextDocument) :
  ¬ isBarrel doc →
  mentionsExport (Document.splitLines (text doc)) = false →
  refreshDiagnostics doc h = HostApi.diagnosticsSet (uri doc) [] h
  ∧ errorMessages (hostOf (refreshDiagnostics doc h)) = errorMessages h
  ∧ exportThisDiagnostics (hostOf (refreshDiagnostics doc h)) !! uri doc = Some [].
Proof.
  intros Hnb Hno. rewrite refreshDiagnostics_no_export by done.
  repeat split. simpl. apply lookup_insert_eq.
Qed.

Lemma refreshDiagnostics_clears_without_export_witness :
  refreshDiagnostics (mkTextDocument (fileUri ["ws"; "a"; "Foo.ts"])
                                     "/ws/a/Foo.ts" "class Foo {}") staleHost
  = HostApi.diagnosticsSet (fileUri ["ws"; "a"; "Foo.ts"]) [] staleHost
  ∧ errorMessages
      (hostOf (refreshDiagnostics
                 (mkTextDocument (fileUri ["ws"; "a"; "Foo.ts"])
                                 "/ws/a/Foo.ts" "class Foo {}") staleHost))
    = errorMessages staleHost
  ∧ exportThisDiagnostics
      (hostOf (refreshDiagnostics
                 (mkTextDocument (fileUri ["ws"; "a"; "Foo.ts"])
                                 "/ws/a/Foo.ts" "class Foo {}") staleHost))
      !! fileUri ["ws"; "a"; "Foo.ts"] = Some [].
Proof.
  apply (refreshDiagnostics_clears_without_export staleHost
           (mkTextDocument (fileUri ["ws"; "a"; "Foo.ts"])
                           "/ws/a/Foo.ts" "class Foo {}")).
  - vm_compute. discriminate.
  - vm_compute. reflexivity.
Defined.

(** With a line that contains [EXPORT] and a failed precondition, the loop
    ends at that line after the one message of [findIndex]. *)
Lemma scanLines_precondition h msg lines :
  preconditionMessage h = Some msg →
  mentionsExport lines = true →
  ∀ lineIndex diagnostics,
    scanLines lineIndex lines diagnostics h
    = (HostApi.showErrorMessage msg ;;; ret None) h.
Proof.
  intros Hpre. induction lines as [|l lines IH]; intros Hex k ds; [done|].
  rewrite mentionsExport_cons in Hex. simpl.
  destruct (JsString.indexOf l EXPORT); [|by apply IH].
  unfold bind at 1. by rewrite (findIndex_precondition h msg Hpre).
Qed.

Lemma refreshDiagnostics_precondition h doc msg :
  preconditionMessage h = Some msg →
  ¬ isBarrel doc →
  mentionsExport (Document.splitLines (text doc)) = true →
  refreshDiagnostics doc h = HostApi.showErrorMessage msg h.
Proof.
  intros Hpre Hnb Hex. unfold refreshDiagnostics.
  destruct (decide _) as [Hb|_]; [by destruct Hnb|].
  unfold bind at 1. by rewrite (scanLines_precondition h msg).
Qed.

(** X3. Without a workspace folder, or without an active editor, a scan of
    a document that is not a barrel file and has a line containing
    [export] shows exactly one error message, the one of [findIndex]
    ("No folder/workspace open." or "Error loading active file."), and
    returns: the marker sets, old ones included, are left as they were. *)
Theorem refreshDiagnostics_precondition_failure (h : Host) (doc : TextDocument)
    (msg : string) :
  preconditionMessage h = Some msg →
  ¬ isBarrel doc →
  mentionsExport (Document.splitLines (text doc)) = true →
  refreshDiagnostics doc h = HostApi.showErrorMessage msg h
  ∧ (msg = "No folder/workspace open." ∨ msg = "Error loading active file.")
  ∧ exportThisDiagnostics (hostOf (refreshDiagnostics doc h))
    = exportThisDiagnostics h.
Proof.
  intros Hpre Hnb Hex.
  pose proof (refreshDiagnostics_precondition h doc msg Hpre Hnb Hex) as Hrun.
  repeat split; [done| |by rewrite Hrun].
  unfold preconditionMessage in Hpre.
  destruct (workspaceFolders h) as [[|? ?]|]; try (left; congruence).
  destruct (activeTextEditor h); [done|right; congruence].
Qed.

Lemma refreshDiagnostics_precondition_failure_witness :
  refreshDiagnostics movedDocument staleHost
  = HostApi.showErrorMessage "Error loading active file." staleHost
  ∧ ("Error loading active file." = "No folder/workspace open."
     ∨ "Error loading active file." = "Error loading active file.")
  ∧ exportThisDiagnostics (hostOf (refreshDiagnostics movedDocument staleHost))
    = exportThisDiagnostics staleHost.
Proof.
  apply (refreshDiagnostics_precondition_failure staleHost movedDocument
           "Error loading active file.").
  - reflexivity.
  - vm_compute. discriminate.
  - vm_compute. reflexivity.
Defined.

Lemma exportCommand_precondition h msg :
  preconditionMessage h = Some msg →
  exportCommand h
  = Returned (mkHost (workspaceFolders h) (activeTextEditor h) (fs h)
                     (exportThisDiagnostics h)
                     (errorMessages h
                        ++ [msg; "Unable to find an index.ts file to export to"]))
             tt.
Proof.
  intros Hpre. unfold exportCommand, bind at 1.
  rewrite (findIndex_precondition h msg Hpre). simpl.
  unfold HostApi.showErrorMessage. simpl. by rewrite <- app_assoc.
Qed.

(** What the export command does once [findIndex] has made its walk: it
    opens the URI the walk ended on and puts the statement at the end of
    its text, or rejects when there is no file to open. *)
Lemma exportCommand_run h workspaceUri others active :
  workspaceFolders h = Some (workspaceUri :: others) →
  activeTextEditor h = Some active →
  let indexUri := barrelOf (fs h) workspaceUri active in
  exportCommand h =
  match fs h !! indexUri with
  | Some (File content) =>
      let text' := content +:+ "export * from '."
                   +:+ specifierOf active indexUri +:+ "';" in
      Returned (mkHost (workspaceFolders h)
                       (Some (mkTextDocument indexUri (path indexUri) text'))
                       (<[indexUri := File text']> (fs h))
                       (exportThisDiagnostics h) (errorMessages h)) tt
  | _ => Rejected h "cannot open the document"
  end.
Proof.
  intros Hws Hed indexUri. unfold exportCommand, bind at 1.
  rewrite (findIndex_active h _ _ _ Hws Hed).
  rewrite (getRelativePath_active h _ _ Hed).
  unfold bind, HostApi.openTextDocument. fold indexUri.
  destruct (fs h !! indexUri) as [[content|]|]; [|done..].
  unfold tryCatch, HostApi.showTextDocument, HostApi.editInsert. simpl.
  destruct (decide (indexUri = indexUri)); [|done].
  unfold Document.lineCount. simpl. by rewrite insert_at_end.
Qed.

(** X4. Without a workspace folder, or without an active editor, the
    export command shows two error messages, the one of [findIndex] and
    then "Unable to find an index.ts file to export to", and changes
    nothing else. *)
Theorem exportCommand_precondition_failure (h : Host) (msg : string) :
  preconditionMessage h = Some msg →
  exportCommand h
  = Returned (mkHost (workspaceFolders h) (activeTextEditor h) (fs h)
                     (exportThisDiagnostics h)
                     (errorMessages h
                        ++ [msg; "Unable to find an index.ts file to export to"]))
             tt
  ∧ (msg = "No folder/workspace open." ∨ msg = "Error loading active file.").
Proof.
  intros Hpre. split; [by apply exportCommand_precondition|].
  unfold preconditionMessage in Hpre.
  destruct (workspaceFolders h) as [[|? ?]|]; try (left; congruence).
  destruct (activeTextEditor h); [done|right; congruence].
Qed.

Lemma exportCommand_precondition_failure_witness :
  exportCommand staleHost
  = Returned (mkHost (workspaceFolders staleHost) (activeTextEditor staleHost)
                     (fs staleHost) (exportThisDiagnostics staleHost)
                     (errorMessages staleHost
                        ++ ["Error loading active file.";
                            "Unable to find an index.ts file to export to"]))
             tt
  ∧ ("Error loading active file." = "No folder/workspace open."
     ∨ "Error loading active file." = "Error loading active file.").
Proof.
  apply (exportCommand_precondition_failure staleHost "Error loading active file.").
  reflexivity.
Defined.

Lemma mentionsExport_true lines :
  mentionsExport lines = true →
  ∃ i lineText, lines !! i = Some lineText
                ∧ JsString.includes lineText EXPORT = true.
Proof.
  unfold mentionsExport. intros (l & Hin & Hl)%existsb_exists.
  apply list_elem_of_In, list_elem_of_lookup in Hin as [i Hi]. by exists i, l.
Qed.

(** The array a completed loop ends with holds all the markers of the
    lines or none. *)
Lemma scanLines_result h h' lines ds :
  scanLines 0 lines [] h = Returned h' (Some ds) →
  ds = [] ∨ ds = exportHints 0 lines.
Proof.
  intros Hrun.
  destruct (mentionsExport lines) eqn:Hex.
  2:{ rewrite scanLines_no_export in Hrun by done. left. congruence. }
  destruct (preconditionMessage h) as [msg|] eqn:Hpre.
  { by rewrite (scanLines_precondition h msg) in Hrun. }
  destruct (findIndex_no_precondition h Hpre) as (w & ws & a & Hws & Hed).
  destruct (fs h !! barrelOf (fs h) w a) as [[content|]|] eqn:Hopen.
  - rewrite (scanLines_run h _ _ content (findIndex_active h _ _ _ Hws Hed)
               (getRelativePath_active h _ _ Hed) Hopen) in Hrun.
    injection Hrun as _ <-. simpl.
    destruct (JsString.indexOf content _); [by left|by right].
  - rewrite (scanLines_rejects h w ws a) in Hrun; try done.
    + intros content. by rewrite Hopen.
    + by apply mentionsExport_true.
  - rewrite (scanLines_rejects h w ws a) in Hrun; try done.
    + intros content. by rewrite Hopen.
    + by apply mentionsExport_true.
Qed.

(** What a scan does to the host, whatever its outcome. *)
Lemma refreshDiagnostics_effect doc h :
  workspaceFolders (hostOf (refreshDiagnostics doc h)) = workspaceFolders h
  ∧ activeTextEditor (hostOf (refreshDiagnostics doc h)) = activeTextEditor h
  ∧ fs (hostOf (refreshDiagnostics doc h)) = fs h
  ∧ (exportThisDiagnostics (hostOf (refreshDiagnostics doc h))
     = exportThisDiagnostics h
     ∨ ¬ isBarrel doc
       ∧ ∃ ds, (ds = [] ∨ ds = exportHints 0 (Document.splitLines (text doc)))
               ∧ refreshDiagnostics doc h
                 = HostApi.diagnosticsSet (uri doc) ds
                     (hostOf (scanLines 0 (Document.splitLines (text doc)) [] h))
               ∧ exportThisDiagnostics (hostOf (refreshDiagnostics doc h))
                 = <[uri doc := ds]> (exportThisDiagnostics h)).
Proof.
  unfold refreshDiagnostics. destruct (decide _) as [Hb|Hnb]; [by repeat split; left|].
  pose proof (scanLines_onlyMessagesAdded (Document.splitLines (text doc)) 0 [] h)
    as (Hws & Hed & Hfs & Hc & _).
  unfold bind.
  destruct (scanLines 0 _ [] h) as [h' [ds|]|h' err] eqn:Hscan; simpl in *;
    repeat split; try done; try (by left).
  right. split; [done|]. exists ds. split; [by eapply scanLines_result|].
  split; [done|]. by rewrite Hc.
Qed.

Lemma handle_effect ev h :
  workspaceFolders (hostOf (handle ev h)) = workspaceFolders h
  ∧ activeTextEditor (hostOf (handle ev h)) = activeTextEditor h
  ∧ fs (hostOf (handle ev h)) = fs h
  ∧ ∀ u, (∀ doc, subject ev h = Some doc → u ≠ uri doc) →
         exportThisDiagnostics (hostOf (handle ev h)) !! u
         = exportThisDiagnostics h !! u.
Proof.
  assert (∀ doc, subject ev h = Some doc →
                 handle ev h = refreshDiagnostics doc h →
                 workspaceFolders (hostOf (handle ev h)) = workspaceFolders h
                 ∧ activeTextEditor (hostOf (handle ev h)) = activeTextEditor h
                 ∧ fs (hostOf (handle ev h)) = fs h
                 ∧ ∀ u, (∀ doc, subject ev h = Some doc → u ≠ uri doc) →
                        exportThisDiagnostics (hostOf (handle ev h)) !! u
                        = exportThisDiagnostics h !! u) as Hscan.
  { intros doc Hsub ->.
    destruct (refreshDiagnostics_effect doc h) as (H1 & H2 & H3 & H4).
    repeat split; try done. intros u Hu.
    destruct H4 as [->|(_ & ds & _ & _ & ->)]; [done|].
    apply lookup_insert_ne. intros E. by apply (Hu doc Hsub). }
  destruct ev as [|[doc|]|doc|doc]; simpl in *.
  - destruct (activeTextEditor h) as [doc|] eqn:Hed; [|done].
    by apply (Hscan doc).
  - by apply (Hscan doc).
  - done.
  - by apply (Hscan doc).
  - repeat split. intros u Hu. apply lookup_delete_ne.
    intros E. by apply (Hu doc eq_refl).
Qed.

(** X5. Handling an event never changes the workspace folders, the active
    editor or any file, whether the handler returns or rejects, and within
    the diagnostic collection it leaves the marker set of every document
    other than the one the event is about as it was. *)
Theorem handle_frame (ev : Event) (h : Host) :
  workspaceFolders (hostOf (handle ev h)) = workspaceFolders h
  ∧ activeTextEditor (hostOf (handle ev h)) = activeTextEditor h
  ∧ fs (hostOf (handle ev h)) = fs h
  ∧ ∀ u, (∀ doc, subject ev h = Some doc → u ≠ uri doc) →
         exportThisDiagnostics (hostOf (handle ev h)) !! u
         = exportThisDiagnostics h !! u.
Proof. apply handle_effect. Qed.

(** * A scan among other handlers *)

Section Amid.

Variable others : Others.

(** With nobody at the awaits, the loop is [scanLines]. *)
Lemma scanLinesAmid_nobody lines :
  ∀ lineIndex diagnostics h,
    scanLinesAmid nobody lineIndex lines diagnostics h
    = scanLines lineIndex lines diagnostics h.
Proof.
  induction lines as [|l lines IH]; intros k ds h; [done|].
  simpl. destruct (JsString.indexOf l EXPORT) as [index|]; [|apply IH].
  unfold bind at 1 3, awaitAmid at 1, nobody at 1.
  destruct (findIndex h) as [h1 [indexUri|]|h1 err]; simpl; try done.
  destruct (getRelativePath indexUri h1) as [relPath|]; [|done].
  unfold bind, awaitAmid, nobody at 1.
  destruct (HostApi.openTextDocument indexUri h1) as [h2 textDocument|h2 err];
    simpl; [|done].
  destruct (JsString.indexOf _ relPath); apply IH.
Qed.

Lemma refreshDiagnosticsAmid_nobody doc h :
  refreshDiagnosticsAmid nobody doc h = refreshDiagnostics doc h.
Proof.
  unfold refreshDiagnosticsAmid, refreshDiagnostics.
  destruct (decide _); [done|]. unfold bind. by rewrite scanLinesAmid_nobody.
Qed.

Lemma marksExportLines_sameView h0 h :
  sameView h0 h → marksExportLines h = marksExportLines h0.
Proof. intros (Hws & Hed & Hfs). unfold marksExportLines. by rewrite Hws, Hed, Hfs. Qed.

Variable doc : TextDocument.
Hypothesis alone : leaveAlone others doc.

Lemma leaveAlone_sameView h0 h point :
  sameView h0 h → sameView h0 (others point h).
Proof using alone.
  intros (Hws & Hed & Hfs). destruct (alone point h) as (H1 & H2 & H3 & _).
  repeat split; congruence.
Qed.

(** Among others that leave the scan's view alone, every line that
    contains [EXPORT] meets the same barrel and the same specifier: the
    loop pushes a marker for each of them or for none. *)
Lemma scanLinesAmid_result h0 lines :
  ∀ lineIndex diagnostics h,
    sameView h0 h →
    sameView h0 (hostOf (scanLinesAmid others lineIndex lines diagnostics h))
    ∧ exportThisDiagnostics
        (hostOf (scanLinesAmid others lineIndex lines diagnostics h)) !! uri doc
      = exportThisDiagnostics h !! uri doc
    ∧ ∀ h' ds,
        scanLinesAmid others lineIndex lines diagnostics h = Returned h' (Some ds) →
        ds = diagnostics
             ++ (if marksExportLines h0 then exportHints lineIndex lines else []).
Proof using alone.
  induction lines as [|l lines IH]; intros k ds h Hview.
  { simpl. repeat split; try apply Hview. intros h' ds' [= _ <-].
    by destruct (marksExportLines h0); rewrite app_nil_r. }
  simpl. destruct (JsString.indexOf l EXPORT) as [index|]; [|by apply IH].
  unfold bind, awaitAmid.
  destruct (preconditionMessage h) as [msg|] eqn:Hpre.
  { rewrite (findIndex_precondition h msg Hpre). unfold bind. simpl.
    destruct (alone (AwaitFindIndex k)
                (mkHost (workspaceFolders h) (activeTextEditor h) (fs h)
                        (exportThisDiagnostics h) (errorMessages h ++ [msg])))
      as (H1 & H2 & H3 & H4).
    destruct Hview as (Hws & Hed & Hfs). simpl in H1, H2, H3, H4.
    repeat split; try congruence. intros h' ds' [=]. }
  destruct (findIndex_no_precondition h Hpre) as (w & ws & a & Hws & Hed).
  rewrite (findIndex_active h _ _ _ Hws Hed). simpl.
  pose proof (leaveAlone_sameView h0 h (AwaitFindIndex k) Hview) as HviewA.
  destruct (alone (AwaitFindIndex k) h) as (HwsA & HedA & HfsA & HcA).
  remember (others (AwaitFindIndex k) h) as hA eqn:EhA.
  rewrite (getRelativePath_active hA _ a) by congruence.
  unfold HostApi.openTextDocument. rewrite HfsA.
  pose proof (marksExportLines_sameView h0 h Hview) as Hmarks.
  unfold marksExportLines at 1 in Hmarks. rewrite Hws, Hed in Hmarks.
  pose proof (leaveAlone_sameView h0 hA (AwaitOpenTextDocument k) HviewA) as HviewB.
  destruct (alone (AwaitOpenTextDocument k) hA) as (_ & _ & _ & HcB).
  destruct (fs h !! barrelOf (fs h) w a) as [[content|]|] eqn:Hopen; simpl;
    try (repeat split; try apply HviewB; [congruence|intros h' ds' [=]]).
  unfold Document.getText. simpl.
  destruct (JsString.indexOf content _) eqn:Hin.
  - destruct (IH (S k) ds _ HviewB) as (I1 & I2 & I3).
    repeat split; try apply I1; [congruence|].
    intros h' ds' Hrun. rewrite (I3 h' ds' Hrun).
    rewrite <- Hmarks. by rewrite bool_decide_false.
  - destruct (IH (S k) (ds ++ [exportDiagnostic k index]) _ HviewB) as (I1 & I2 & I3).
    repeat split; try apply I1; [congruence|].
    intros h' ds' Hrun. rewrite (I3 h' ds' Hrun).
    rewrite <- Hmarks. rewrite bool_decide_true by done.
    by rewrite <- app_assoc.
Qed.

(** What the scan leaves for [doc] in the collection. *)
Lemma refreshDiagnosticsAmid_result h :
  exportThisDiagnostics (hostOf (refreshDiagnosticsAmid others doc h)) !! uri doc
  = exportThisDiagnostics h !! uri doc
  ∨ exportThisDiagnostics (hostOf (refreshDiagnosticsAmid others doc h)) !! uri doc
    = Some (if marksExportLines h
            then exportHints 0 (Document.splitLines (text doc)) else []).
Proof using alone.
  unfold refreshDiagnosticsAmid. destruct (decide _); [by left|].
  destruct (scanLinesAmid_result h (Document.splitLines (text doc)) 0 [] h)
    as (_ & Hc & Hds); [done|].
  unfold bind.
  destruct (scanLinesAmid others 0 _ [] h) as [h' [ds|]|h' err] eqn:Hscan;
    simpl in *; try by left.
  right. rewrite lookup_insert_eq. by rewrite (Hds h' ds eq_refl).
Qed.

End Amid.

(** X6. A scan does not publish part of the markers as long as the other
    handlers and the user, let in at every await of the scan, leave the
    workspace folders, the active editor, the files and the marker set of
    the scanned document as they are (they may show messages and change
    the markers of other documents): when the scan is over, returned or
    rejected, the marker set of the document is as it was before, or it is
    empty, or it holds one marker for every line that contains
    [export]. *)
Theorem refreshDiagnostics_all_or_nothing (others : Others) (h : Host)
    (doc : TextDocument) :
  leaveAlone others doc →
  exportThisDiagnostics (hostOf (refreshDiagnosticsAmid others doc h)) !! uri doc
  = exportThisDiagnostics h !! uri doc
  ∨ exportThisDiagnostics (hostOf (refreshDiagnosticsAmid others doc h)) !! uri doc
    = Some []
  ∨ exportThisDiagnostics (hostOf (refreshDiagnosticsAmid others doc h)) !! uri doc
    = Some (exportHints 0 (Document.splitLines (text doc))).
Proof.
  intros Halone.
  destruct (refreshDiagnosticsAmid_result others doc Halone h) as [H|H]; [by left|].
  right. rewrite H. destruct (marksExportLines h); [by right|by left].
Qed.

Lemma refreshDiagnostics_all_or_nothing_witness :
  leaveAlone closesBar fooSibling
  ∧ (exportThisDiagnostics
       (hostOf (refreshDiagnosticsAmid closesBar fooSibling (siblingHost "")))
       !! uri fooSibling
     = exportThisDiagnostics (siblingHost "") !! uri fooSibling
     ∨ exportThisDiagnostics
         (hostOf (refreshDiagnosticsAmid closesBar fooSibling (siblingHost "")))
         !! uri fooSibling
       = Some []
     ∨ exportThisDiagnostics
         (hostOf (refreshDiagnosticsAmid closesBar fooSibling (siblingHost "")))
         !! uri fooSibling
       = Some (exportHints 0 (Document.splitLines (text fooSibling)))).
Proof.
  assert (leaveAlone closesBar fooSibling) as Halone.
  { intros point h. repeat split. simpl. by apply lookup_delete_ne. }
  split; [exact Halone|].
  apply (refreshDiagnostics_all_or_nothing closesBar (siblingHost "") fooSibling).
  exact Halone.
Defined.

(** The condition is needed: when the user goes from [Foo.ts], which the
    barrel re-exports, to [Bar.ts], which it does not, while line 0 of a
    scan waits for the barrel, the scan sets a marker on line 1 only. *)
Lemma refreshDiagnosticsAmid_editor_switch :
  exportHints 0 (Document.splitLines (text twoExports))
  = [exportDiagnostic 0 0; exportDiagnostic 1 0]
  ∧ exportThisDiagnostics
      (hostOf (refreshDiagnosticsAmid editorSwitch twoExports
                 (siblingHost "export * from './Foo';")))
    !! uri twoExports
    = Some [exportDiagnostic 1 0]
  ∧ ¬ leaveAlone editorSwitch twoExports.
Proof.
  split; [by vm_compute|]. split; [by vm_compute|].
  intros H.
  destruct (H (AwaitOpenTextDocument 0) (siblingHost "")) as (_ & Hed & _).
  vm_compute in Hed. discriminate.
Qed.

(** * What the export command touches *)

Lemma exportCommand_effect h :
  exportThisDiagnostics (hostOf (exportCommand h)) = exportThisDiagnostics h
  ∧ workspaceFolders (hostOf (exportCommand h)) = workspaceFolders h
  ∧ ∀ u, (∀ h1 indexUri, findIndex h = Returned h1 (Some indexUri) → u ≠ indexUri) →
         fs (hostOf (exportCommand h)) !! u = fs h !! u.
Proof.
  destruct (preconditionMessage h) as [msg|] eqn:Hpre.
  { by rewrite (exportCommand_precondition h msg Hpre). }
  destruct (findIndex_no_precondition h Hpre) as (w & ws & a & Hws & Hed).
  rewrite (exportCommand_run h w ws a Hws Hed). cbv zeta.
  destruct (fs h !! _) as [[content|]|] eqn:Hopen; try done.
  simpl. repeat split. intros u Hu. apply lookup_insert_ne.
  intros E. by apply (Hu h _ (findIndex_active h _ _ _ Hws Hed)).
Qed.

(** X7. The export command never touches the diagnostic collection or the
    workspace folders, and the only file it can change is the one at the
    URI [findIndex] returned: every other entry of the file system is as
    before, whether the command returns or rejects. *)
Theorem exportCommand_frame (h : Host) :
  exportThisDiagnostics (hostOf (exportCommand h)) = exportThisDiagnostics h
  ∧ workspaceFolders (hostOf (exportCommand h)) = workspaceFolders h
  ∧ ∀ u, (∀ h1 indexUri, findIndex h = Returned h1 (Some indexUri) → u ≠ indexUri) →
         fs (hostOf (exportCommand h)) !! u = fs h !! u.
Proof. apply exportCommand_effect. Qed.

(** * The quick fix *)

Lemma exportHints_scannerMarker k lines d :
  d ∈ exportHints k lines → scannerMarker d.
Proof. intros (i & l & ix & _ & _ & ->)%exportHints_lines. by eexists _, _. Qed.

Lemma refreshDiagnostics_onlyScannerMarkers doc h :
  onlyScannerMarkers h → onlyScannerMarkers (hostOf (refreshDiagnostics doc h)).
Proof.
  intros Hinv u ds d Hu Hd.
  destruct (refreshDiagnostics_effect doc h)
    as (_ & _ & _ & [Hc|(_ & ds' & Hds' & _ & Hc)]); rewrite Hc in Hu.
  - by eapply Hinv.
  - destruct (decide (u = uri doc)) as [->|Hne].
    + rewrite lookup_insert_eq in Hu. injection Hu as <-.
      destruct Hds' as [-> | ->]; [by apply elem_of_nil in Hd|].
      by eapply exportHints_scannerMarker.
    + rewrite lookup_insert_ne in Hu by done. by eapply Hinv.
Qed.

Lemma sessionStep_onlyScannerMarkers h h' :
  sessionStep h h' → onlyScannerMarkers h → onlyScannerMarkers h'.
Proof.
  intros Hstep Hinv. destruct Hstep as [ev h|h|h h' Hsame].
  - destruct ev as [|[doc|]|doc|doc]; simpl.
    + destruct (activeTextEditor h); [|done].
      by apply refreshDiagnostics_onlyScannerMarkers.
    + by apply refreshDiagnostics_onlyScannerMarkers.
    + done.
    + by apply refreshDiagnostics_onlyScannerMarkers.
    + intros u ds d Hu Hd. simpl in Hu.
      apply lookup_delete_Some in Hu as [_ Hu].
      by eapply Hinv.
  - intros u ds d Hu Hd.
    destruct (exportCommand_effect h) as (Hc & _). rewrite Hc in Hu.
    by eapply Hinv.
  - intros u ds d Hu Hd. rewrite Hsame in Hu. by eapply Hinv.
Qed.

Lemma session_onlyScannerMarkers h h' :
  rtc sessionStep h h' → onlyScannerMarkers h → onlyScannerMarkers h'.
Proof.
  induction 1 as [|h h1 h' Hstep _ IH]; [done|].
  intros Hinv. by eapply IH, sessionStep_onlyScannerMarkers.
Qed.

(** The provider answers with one action for each diagnostic that carries
    the scanner's code, in their order, and with none for the others. *)
Lemma provideCodeActions_scanner document range ds :
  Forall scannerMarker ds →
  ExportThisInfo.provideCodeActions document range (mkCodeActionContext ds)
  = map ExportThisInfo.createCommandCodeAction ds.
Proof.
  intros Hall. unfold ExportThisInfo.provideCodeActions. simpl. f_equal.
  induction Hall as [|d ds [i [ix ->]] _ IH]; [done|].
  rewrite filter_cons_True by done. by rewrite IH.
Qed.

(** X8. In every state of a session that starts with an empty diagnostic
    collection, whatever events were handled, commands run and changes
    made by the user in between, every marker the collection holds was
    built by the scanner: a hint "Export file" with the scanner's code
    over six characters of one line. *)
Theorem session_markers_are_scanner_markers (h h' : Host) (u : Uri)
    (ds : list Diagnostic) (d : Diagnostic) :
  exportThisDiagnostics h = ∅ →
  rtc sessionStep h h' →
  exportThisDiagnostics h' !! u = Some ds →
  d ∈ ds →
  ∃ lineIndex index,
    d = mkDiagnostic (newRange lineIndex index lineIndex (index + 6))
                     "Export file" SevHint (Some EXPORT_THIS_MENTION).
Proof.
  intros Hempty Hsession Hu Hd.
  assert (onlyScannerMarkers h) as Hinit.
  { intros u' ds' d' Hu'. by rewrite Hempty, lookup_empty in Hu'. }
  exact (session_onlyScannerMarkers h h' Hsession Hinit u ds d Hu Hd).
Qed.

(** X9. The quick fix is offered for exactly the markers of the scanner:
    asked about the diagnostics of a document in any state of such a
    session, together with diagnostics of other origin (another code, or
    none), the provider returns one "Export file" action per scanner
    marker, in order, each bound to that marker and to the export
    command, and nothing for the others. *)
Theorem provideCodeActions_offers_export (h h' : Host) (u : Uri)
    (ds foreign : list Diagnostic) (document : TextDocument) (range : Range) :
  exportThisDiagnostics h = ∅ →
  rtc sessionStep h h' →
  exportThisDiagnostics h' !! u = Some ds →
  Forall (λ d, code d ≠ Some EXPORT_THIS_MENTION) foreign →
  ExportThisInfo.provideCodeActions document range
    (mkCodeActionContext (foreign ++ ds))
  = map (λ d, mkCodeAction "Export file" KindQuickFix
                (Some (mkCommand COMMAND "Export file"
                   "This will export the current file to the nearst index.ts file."))
                (Some [d]) (Some false)) ds.
Proof.
  intros Hempty Hsession Hu Hforeign.
  assert (Forall scannerMarker ds) as Hall.
  { apply Forall_forall. intros d Hd.
    assert (onlyScannerMarkers h) as Hinit.
    { intros u' ds' d' Hu'. by rewrite Hempty, lookup_empty in Hu'. }
    exact (session_onlyScannerMarkers h h' Hsession Hinit u ds d Hu Hd). }
  unfold ExportThisInfo.provideCodeActions. simpl. rewrite filter_app.
  assert (filter (λ d, code d = Some EXPORT_THIS_MENTION) foreign = []) as ->.
  { induction Hforeign as [|d l Hd _ IH]; [done|].
    by rewrite filter_cons_False. }
  simpl.
  exact (provideCodeActions_scanner document range ds Hall).
Qed.

Lemma session_markers_are_scanner_markers_witness :
  ∃ lineIndex index,
    exportDiagnostic 0 0
    = mkDiagnostic (newRange lineIndex index lineIndex (index + 6))
                   "Export file" SevHint (Some EXPORT_THIS_MENTION).
Proof.
  apply (session_markers_are_scanner_markers nearestHost
           (hostOf (handle (DidChangeTextDocument fooDocument) nearestHost))
           (uri fooDocument) [exportDiagnostic 0 0] (exportDiagnostic 0 0)).
  - reflexivity.
  - apply rtc_once, step_event.
  - vm_compute. reflexivity.
  - left.
Defined.

Lemma provideCodeActions_offers_export_witness :
  ExportThisInfo.provideCodeActions fooDocument (newRange 0 0 0 6)
    (mkCodeActionContext
       ([mkDiagnostic (newRange 0 0 0 5) "Cannot find name" SevError None]
        ++ [exportDiagnostic 0 0]))
  = map (λ d, mkCodeAction "Export file" KindQuickFix
                (Some (mkCommand COMMAND "Export file"
                   "This will export the current file to the nearst index.ts file."))
                (Some [d]) (Some false)) [exportDiagnostic 0 0].
Proof.
  apply (provideCodeActions_offers_export nearestHost
           (hostOf (handle (DidChangeTextDocument fooDocument) nearestHost))
           (uri fooDocument) [exportDiagnostic 0 0]
           [mkDiagnostic (newRange 0 0 0 5) "Cannot find name" SevError None]
           fooDocument (newRange 0 0 0 6)).
  - reflexivity.
  - apply rtc_once, step_event.
  - vm_compute. reflexivity.
  - repeat constructor. discriminate.
Defined.

(** * The name of what [findIndex] returns *)

Section IndexNames.
Implicit Types s t q : string.

Lemma splitSlash_noslash s : Forall (λ x, hasSlash x = false) (JsString.splitSlash s).
Proof.
  induction s as [|c s IH]; simpl; [by repeat constructor|].
  destruct (Ascii.eqb c "/") eqn:Hc; [by constructor|].
  destruct (JsString.splitSlash s) as [|x xs]; [repeat constructor; simpl; by rewrite Hc|].
  apply Forall_cons in IH as [Hx Hxs]. constructor; [|done].
  simpl. by rewrite Hc, Hx.
Qed.

Lemma splitSlash_app_slash s t :
  JsString.splitSlash (s +:+ "/" +:+ t)
  = JsString.splitSlash s ++ JsString.splitSlash t.
Proof.
  induction s as [|c s IH]; [reflexivity|].
  rewrite sapp_cons. simpl. rewrite IH.
  destruct (Ascii.eqb c "/"); [done|].
  pose proof (splitSlash_nonempty s).
  by destruct (JsString.splitSlash s).
Qed.

Lemma normalizeStep_kept b res seg :
  Forall keptSegment res → hasSlash seg = false →
  Forall keptSegment (posix.normalizeStep b res seg).
Proof.
  intros Hres Hseg. unfold posix.normalizeStep.
  destruct (decide (seg = "" ∨ seg = ".")) as [_|Hn]; [done|].
  destruct (decide (seg = "..")) as [->|_].
  - destruct res as [|top rest].
    + destruct b; by repeat constructor.
    + destruct (decide (top = "..")).
      * destruct b; [|done]. by constructor.
      * by apply Forall_cons in Hres as [_ ?].
  - constructor; [|done]. split; [|done]. intros ->. apply Hn. by left.
Qed.

Lemma fold_normalizeStep_kept b segs res :
  Forall keptSegment res → Forall (λ x, hasSlash x = false) segs →
  Forall keptSegment (fold_left (posix.normalizeStep b) segs res).
Proof.
  intros Hres Hsegs. revert res Hres.
  induction Hsegs as [|s segs Hs _ IH]; intros res Hres; [done|].
  simpl. by apply IH, normalizeStep_kept.
Qed.

Lemma joinSlash_snoc segs s :
  JsString.joinSlash (segs ++ [s])
  = match segs with
    | [] => s
    | _ => JsString.joinSlash segs +:+ "/" +:+ s
    end.
Proof.
  unfold JsString.joinSlash.
  induction segs as [|x segs IH]; [reflexivity|].
  destruct segs as [|y segs]; [reflexivity|].
  change (String.concat "/" ((x :: y :: segs) ++ [s]))
    with (x +:+ "/" +:+ String.concat "/" ((y :: segs) ++ [s])).
  rewrite IH.
  change (String.concat "/" (x :: y :: segs))
    with (x +:+ "/" +:+ String.concat "/" (y :: segs)).
  by rewrite !sapp_assoc.
Qed.

(** A path that names [index.ts] ends with [/index.ts] once absolute. *)
Lemma absIndexPath_ends s : absIndexPath s → ∃ q, s = q +:+ "/index.ts".
Proof.
  intros (segs & _ & ->). rewrite joinSlash_snoc.
  destruct segs as [|x segs]; [by exists ""|].
  exists ("/" +:+ JsString.joinSlash (x :: segs)). by rewrite !sapp_assoc.
Qed.

Lemma joinSlash_kept_start segs :
  Forall keptSegment segs →
  JsString.startsWithSlash (JsString.joinSlash (segs ++ ["index.ts"])) = false
  ∧ JsString.joinSlash (segs ++ ["index.ts"]) ≠ "".
Proof.
  intros Hsegs. destruct Hsegs as [|x segs [Hx Hsl] _]; [done|].
  unfold JsString.joinSlash. rewrite <- app_comm_cons.
  destruct (segs ++ ["index.ts"]) as [|y ys] eqn:E; [by destruct segs|].
  change (String.concat "/" (x :: y :: ys))
    with (x +:+ "/" +:+ String.concat "/" (y :: ys)).
  destruct x as [|c x]; [done|]. simpl in Hsl.
  apply orb_false_iff in Hsl as [Hc _]. rewrite sapp_cons. simpl. by rewrite Hc.
Qed.

(** Normalizing any path that ends with the segment [index.ts]. *)
Lemma normalize_indexPathOk q : indexPathOk (posix.normalize (q +:+ "/index.ts")).
Proof.
  unfold posix.normalize.
  destruct (decide (q +:+ "/index.ts" = "")) as [E|_].
  { by destruct q. }
  assert (JsString.endsWithSlash (q +:+ "/index.ts") = false) as ->.
  { by rewrite endsWithSlash_app. }
  unfold posix.normalizeString.
  assert (JsString.splitSlash (q +:+ "/index.ts")
          = JsString.splitSlash q ++ ["index.ts"]) as ->.
  { exact (splitSlash_app_slash q "index.ts"). }
  rewrite fold_left_app.
  set (b := negb (JsString.startsWithSlash (q +:+ "/index.ts"))).
  set (acc := fold_left (posix.normalizeStep b) (JsString.splitSlash q) []).
  assert (Forall keptSegment acc) as Hacc.
  { apply fold_normalizeStep_kept; [done|apply splitSlash_noslash]. }
  cbn [fold_left]. rewrite normalizeStep_ok by done. cbn [rev].
  assert (Forall keptSegment (rev acc)) as Hrev.
  { apply Forall_forall. intros x Hx. rewrite Forall_forall in Hacc.
    apply Hacc. by apply list_elem_of_In, in_rev, list_elem_of_In. }
  destruct (joinSlash_kept_start (rev acc) Hrev) as [_ Hne].
  destruct (decide (JsString.joinSlash (rev acc ++ ["index.ts"]) = "")); [done|].
  exists (rev acc). split; [done|].
  destruct (JsString.startsWithSlash (q +:+ "/index.ts")); [by right|by left].
Qed.

Lemma join_indexPathOk args :
  indexPathOk (posix.join (args ++ [".."; "index.ts"])).
Proof.
  unfold posix.join. rewrite filter_app.
  change (filter (λ a : string, a ≠ "") [".."; "index.ts"]) with [".."; "index.ts"].
  set (parts := filter (λ a : string, a ≠ "") args).
  destruct (parts ++ [".."; "index.ts"]) as [|p ps] eqn:E; [by destruct parts|].
  rewrite <- E.
  replace (parts ++ [".."; "index.ts"]) with ((parts ++ [".."]) ++ ["index.ts"])
    by (by rewrite <- app_assoc).
  rewrite joinSlash_snoc.
  destruct (parts ++ [".."]) as [|x xs] eqn:E'; [by destruct parts|].
  exact (normalize_indexPathOk (JsString.joinSlash (x :: xs))).
Qed.

Lemma sliceFrom_one c s : JsString.sliceFrom (String c s) 1 = s.
Proof.
  unfold JsString.sliceFrom. simpl. rewrite Nat.sub_0_r. apply substring_full.
Qed.

(** [Uri.file] and [with] keep such a path, with a leading slash. *)
Lemma file_indexPathOk s :
  indexPathOk s →
  scheme (UriOps.file s) = "file" ∧ authority (UriOps.file s) = ""
  ∧ absIndexPath (path (UriOps.file s)).
Proof.
  intros (segs & Hsegs & Hs).
  destruct (joinSlash_kept_start segs Hsegs) as [Hstart Hne].
  unfold UriOps.file. destruct Hs as [-> | ->].
  - rewrite Hstart. simpl. repeat split.
    unfold UriOps.referenceResolution. simpl.
    destruct (decide _) as [?|_]; [done|]. rewrite Hstart. by exists segs.
  - change ("/" +:+ JsString.joinSlash (segs ++ ["index.ts"]))
      with (String "/" (JsString.joinSlash (segs ++ ["index.ts"]))).
    rewrite sliceFrom_one. simpl. rewrite Hstart. simpl. repeat split.
    by exists segs.
Qed.

Lemma with_path_indexPathOk u s :
  scheme u = "file" → indexPathOk s →
  scheme (UriOps.with_path u s) = "file"
  ∧ authority (UriOps.with_path u s) = authority u
  ∧ absIndexPath (path (UriOps.with_path u s)).
Proof.
  intros Hu (segs & Hsegs & Hs).
  destruct (joinSlash_kept_start segs Hsegs) as [Hstart Hne].
  unfold UriOps.with_path. simpl. rewrite Hu. repeat split.
  exists segs. split; [done|]. unfold UriOps.referenceResolution. simpl.
  destruct Hs as [-> | ->].
  - destruct (decide _) as [?|_]; [done|]. by rewrite Hstart.
  - reflexivity.
Qed.

End IndexNames.

Section Basename.
Implicit Types s t q : string.

Lemma list_ascii_of_string_app s t :
  list_ascii_of_string (s +:+ t) = list_ascii_of_string s ++ list_ascii_of_string t.
Proof. induction s as [|c s IH]; [done|]. rewrite sapp_cons. simpl. by rewrite IH. Qed.

Lemma length_list_ascii s : length (list_ascii_of_string s) = String.length s.
Proof. induction s as [|c s IH]; [done|]. simpl. by rewrite IH. Qed.

Lemma substring_app_skip s t k n :
  String.substring (String.length s + k) n (s +:+ t) = String.substring k n t.
Proof. induction s as [|c s IH]; [done|]. rewrite sapp_cons. simpl. apply IH. Qed.

Lemma sliceZ_nat s a b :
  a ≤ b → b ≤ String.length s →
  posix.sliceZ s (Z.of_nat a) (Z.of_nat b) = String.substring a (b - a) s.
Proof.
  intros Hab Hb. unfold posix.sliceZ, JsString.slice.
  rewrite !(proj2 (Z.ltb_ge _ _)) by lia.
  rewrite !Z.min_l by lia. by rewrite !Nat2Z.id.
Qed.

Lemma basenameScan_index (rest : list ascii) :
  posix.basenameScan
    (rev (list_ascii_of_string "/index.ts") ++ rest)
    (posix.mkBasenameState 0 (-1) true 0 (-1))
  = posix.mkBasenameState (Z.of_nat (length rest + 1))
                          (Z.of_nat (length rest + 9)) false 0 (-1).
Proof. simpl. f_equal; lia. Qed.

Lemma basenameSuffixScan_nonslash suffix code rest (a e : Z) (m : bool) (x f : Z) :
  Ascii.eqb code "/" = false →
  posix.basenameSuffixScan suffix (code :: rest) (posix.mkBasenameState a e m x f)
  = let i := Z.of_nat (length rest) in
    let m' := if (f =? -1)%Z then false else m in
    let f' := if (f =? -1)%Z then (i + 1)%Z else f in
    posix.basenameSuffixScan suffix rest
      (if (0 <=? x)%Z then
         if decide (Some code = posix.charCodeAt suffix x) then
           if (x - 1 =? -1)%Z then posix.mkBasenameState a i m' (x - 1) f'
           else posix.mkBasenameState a e m' (x - 1) f'
         else posix.mkBasenameState a f' m' (-1) f'
       else posix.mkBasenameState a e m' x f').
Proof.
  intros Hc. cbn [posix.basenameSuffixScan]. rewrite Hc. cbv zeta.
  cbn [posix.bs_start posix.bs_end posix.bs_matchedSlash posix.bs_extIdx
       posix.bs_firstNonSlashEnd].
  destruct (f =? -1)%Z;
    cbn [posix.bs_start posix.bs_end posix.bs_matchedSlash posix.bs_extIdx
         posix.bs_firstNonSlashEnd]; reflexivity.
Qed.

Ltac decide_tests :=
  repeat match goal with
    | |- context [Z.eqb ?a ?b] =>
        first [rewrite (proj2 (Z.eqb_neq a b)) by lia
              |rewrite (proj2 (Z.eqb_eq a b)) by lia]
    | |- context [Z.leb ?a ?b] =>
        first [rewrite (proj2 (Z.leb_le a b)) by lia
              |rewrite (proj2 (Z.leb_gt a b)) by lia]
    end;
  cbv beta iota.

Ltac scan_char :=
  rewrite basenameSuffixScan_nonslash by reflexivity;
  cbv zeta; cbn [length]; decide_tests;
  try (destruct (decide (Some _ = posix.charCodeAt _ _)) as [_|Hne];
       [|exfalso; apply Hne; reflexivity]);
  decide_tests.

Lemma basenameSuffixScan_index (rest : list ascii) :
  posix.basenameSuffixScan ".ts"
    (rev (list_ascii_of_string "/index.ts") ++ rest)
    (posix.mkBasenameState 0 (-1) true 2 (-1))
  = posix.mkBasenameState (Z.of_nat (length rest + 1))
                          (Z.of_nat (length rest + 6)) false (-1)
                          (Z.of_nat (length rest + 9)).
Proof.
  change (rev (list_ascii_of_string "/index.ts") ++ rest)
    with ("s" :: "t" :: "." :: "x" :: "e" :: "d" :: "n" :: "i" :: "/" :: rest)%char.
  do 8 scan_char.
  cbn [posix.basenameSuffixScan]. change (Ascii.eqb "/" "/") with true.
  cbn [negb posix.bs_start posix.bs_end posix.bs_matchedSlash posix.bs_extIdx
       posix.bs_firstNonSlashEnd].
  f_equal; lia.
Qed.

(** [posix.basename] of a path that ends with [/index.ts]. *)
Lemma basename_index q :
  posix.basename (q +:+ "/index.ts") None = "index.ts".
Proof.
  unfold posix.basename.
  rewrite list_ascii_of_string_app, rev_app_distr, basenameScan_index.
  cbn [posix.bs_end posix.bs_start].
  rewrite (proj2 (Z.eqb_neq _ _)) by lia.
  rewrite length_rev, length_list_ascii.
  rewrite sliceZ_nat; [|lia|rewrite slength_app; simpl; lia].
  replace (String.length q + 9 - (String.length q + 1)) with 8 by lia.
  by rewrite substring_app_skip.
Qed.

Lemma basename_index_ts q :
  posix.basename (q +:+ "/index.ts") (Some ".ts") = "index".
Proof.
  unfold posix.basename.
  assert (String.length (q +:+ "/index.ts") = String.length q + 9) as Hlen.
  { by rewrite slength_app. }
  rewrite Hlen.
  replace ((0 <? String.length ".ts") && (String.length ".ts" <=? String.length q + 9))
    with true.
  2:{ symmetry. apply andb_true_intro. split; [reflexivity|].
      apply Nat.leb_le. simpl. lia. }
  destruct (decide (".ts" = q +:+ "/index.ts")) as [E|_].
  { apply (f_equal String.length) in E. rewrite Hlen in E. simpl in E. lia. }
  rewrite list_ascii_of_string_app, rev_app_distr.
  change (Z.of_nat (String.length ".ts") - 1)%Z with 2%Z.
  rewrite basenameSuffixScan_index.
  cbn [posix.bs_end posix.bs_start posix.bs_firstNonSlashEnd].
  rewrite !(proj2 (Z.eqb_neq _ _)) by lia.
  rewrite length_rev, length_list_ascii.
  rewrite sliceZ_nat; [|lia|rewrite slength_app; simpl; lia].
  replace (String.length q + 6 - (String.length q + 1)) with 5 by lia.
  by rewrite substring_app_skip.
Qed.

End Basename.

Section WalkNames.
Variable files : gmap Uri FsEntry.
Variable workspacePath : string.

(** Every candidate of the walk is the path of an [index.ts], and so is
    the path of the URI the walk ends on. *)
Lemma findIndexLoop_absIndexPath remaining :
  ∀ found iteration indexPath indexUri probes,
    100 - iteration = remaining →
    scheme indexUri = "file" →
    absIndexPath (path indexUri) →
    indexPathOk indexPath →
    let w := findIndexLoop files workspacePath found iteration indexPath
               indexUri probes in
    scheme (walk_indexUri w) = "file"
    ∧ authority (walk_indexUri w) = authority indexUri
    ∧ absIndexPath (path (walk_indexUri w)).
Proof.
  induction remaining as [|k IH];
    intros found iteration indexPath indexUri probes Hk Hs Hu Hp w; subst w.
  - rewrite findIndexLoop_step. rewrite bool_decide_eq_false_2 by lia.
    by rewrite andb_false_r.
  - rewrite findIndexLoop_step. destruct found; [done|].
    rewrite bool_decide_eq_true_2 by lia. cbn [negb andb]. cbv zeta.
    destruct (with_path_indexPathOk indexUri indexPath Hs Hp) as (Hs' & Ha' & Hu').
    destruct (HostApi.stat files _).
    + rewrite findIndexLoop_step. by cbn.
    + assert (indexPathOk (upward (UriOps.with_path indexUri indexPath))) as Hup.
      { exact (join_indexPathOk [path (UriOps.with_path indexUri indexPath); ".."]). }
      destruct (JsString.indexOf _ workspacePath); [|by cbn].
      destruct (IH false (S iteration)
                  (upward (UriOps.with_path indexUri indexPath))
                  (UriOps.with_path indexUri indexPath) (S probes))
        as (H1 & H2 & H3); [lia|done..|].
      rewrite Ha' in H2. by repeat split.
Qed.

End WalkNames.

Lemma findIndex_names_index h h1 indexUri :
  findIndex h = Returned h1 (Some indexUri) →
  scheme indexUri = "file" ∧ authority indexUri = ""
  ∧ absIndexPath (path indexUri).
Proof.
  unfold findIndex.
  destruct (workspaceFolders h) as [[|ws0 rest]|]; try done.
  destruct (activeTextEditor h) as [document|]; [|done].
  intros [= _ <-].
  assert (indexPathOk (posix.join [path (uri document); ".."; "index.ts"])) as Hp.
  { exact (join_indexPathOk [path (uri document)]). }
  destruct (file_indexPathOk _ Hp) as (Hs & Ha & Hu).
  destruct (findIndexLoop_absIndexPath (fs h) (path ws0) 100 false 0 _ _ 0
              eq_refl Hs Hu Hp) as (H1 & H2 & H3).
  rewrite Ha in H2. by repeat split.
Qed.

(** A document opened from such a URI is a barrel file for the scanner. *)
Lemma absIndexPath_isBarrel u content :
  absIndexPath (path u) → isBarrel (mkTextDocument u (path u) content).
Proof.
  intros Hu. unfold isBarrel. simpl.
  assert (indexPathOk (path u)) as Hp.
  { destruct Hu as (segs & Hsegs & E). exists segs. split; [done|by right]. }
  destruct (file_indexPathOk _ Hp) as (_ & _ & Hfile).
  destruct (absIndexPath_ends _ Hfile) as [q ->]. apply basename_index.
Qed.

(** X10. Whatever the workspace, the active file and the file system are,
    a URI returned by [findIndex] is a [file:] URI without authority whose
    base name is [index.ts], also after a walk that found nothing; a
    document opened from it is one the scanner skips. *)
Theorem findIndex_returns_index_ts (h h1 : Host) (indexUri : Uri) :
  findIndex h = Returned h1 (Some indexUri) →
  scheme indexUri = "file"
  ∧ authority indexUri = ""
  ∧ posix.basename (path indexUri) None = "index.ts"
  ∧ ∀ content, isBarrel (mkTextDocument indexUri (path indexUri) content).
Proof.
  intros (Hs & Ha & Hu)%findIndex_names_index. repeat split; try done.
  - destruct (absIndexPath_ends _ Hu) as [q ->]. apply basename_index.
  - intros content. by apply absIndexPath_isBarrel.
Qed.

Lemma findIndex_returns_index_ts_witness :
  scheme (fileUri ["ws"; "index.ts"]) = "file"
  ∧ authority (fileUri ["ws"; "index.ts"]) = ""
  ∧ posix.basename (path (fileUri ["ws"; "index.ts"])) None = "index.ts"
  ∧ ∀ content, isBarrel (mkTextDocument (fileUri ["ws"; "index.ts"])
                                        (path (fileUri ["ws"; "index.ts"])) content).
Proof.
  apply (findIndex_returns_index_ts noIndexHost noIndexHost
           (fileUri ["ws"; "index.ts"])).
  vm_compute. reflexivity.
Defined.

(** * After the export *)

(** X11. Once the export command has run in a host with a workspace
    folder and an active editor and has returned, the active editor shows
    the barrel file, which the scanner takes for a barrel: the change of
    active editor and the change of text that the command itself causes
    are handled without a lookup, a message or a marker. *)
Theorem exportCommand_leaves_barrel_active (h h' : Host) :
  preconditionMessage h = None →
  exportCommand h = Returned h' tt →
  ∃ barrel,
    activeTextEditor h' = Some barrel
    ∧ isBarrel barrel
    ∧ fs h' !! uri barrel = Some (File (text barrel))
    ∧ handle (DidChangeActiveTextEditor (Some barrel)) h' = Returned h' tt
    ∧ handle (DidChangeTextDocument barrel) h' = Returned h' tt.
Proof.
  intros Hpre Hrun.
  destruct (findIndex_no_precondition h Hpre) as (w & ws & a & Hws & Hed).
  pose proof (findIndex_active h _ _ _ Hws Hed) as Hfind.
  apply findIndex_names_index in Hfind as (_ & _ & Hname).
  rewrite (exportCommand_run h w ws a Hws Hed) in Hrun. cbv zeta in Hrun.
  destruct (fs h !! _) as [[content|]|]; [|done..].
  injection Hrun as <-. eexists. split; [reflexivity|].
  assert (isBarrel (mkTextDocument (barrelOf (fs h) w a)
                      (path (barrelOf (fs h) w a))
                      (content +:+ "export * from '."
                       +:+ specifierOf a (barrelOf (fs h) w a) +:+ "';"))) as Hb.
  { by apply absIndexPath_isBarrel. }
  split; [done|]. split; [apply lookup_insert_eq|].
  split; simpl; by apply refreshDiagnostics_barrel.
Qed.

Lemma exportCommand_leaves_barrel_active_witness :
  ∃ barrel,
    activeTextEditor (hostOf (exportCommand barrelHost)) = Some barrel
    ∧ isBarrel barrel
    ∧ fs (hostOf (exportCommand barrelHost)) !! uri barrel
      = Some (File (text barrel))
    ∧ handle (DidChangeActiveTextEditor (Some barrel))
             (hostOf (exportCommand barrelHost))
      = Returned (hostOf (exportCommand barrelHost)) tt
    ∧ handle (DidChangeTextDocument barrel) (hostOf (exportCommand barrelHost))
      = Returned (hostOf (exportCommand barrelHost)) tt.
Proof.
  apply (exportCommand_leaves_barrel_active barrelHost
           (hostOf (exportCommand barrelHost))).
  - reflexivity.
  - vm_compute. reflexivity.
Defined.

Lemma replace_self s : JsString.replace s s "" = "".
Proof.
  rewrite <- (sapp_nil_r s) at 1. apply replace_prefix.
Qed.

(** X12. When the active file is itself an [index.ts] that exists, which
    is the case right after an export, the export command takes that
    file for its own barrel and appends [export * from './index';] to it:
    the barrel re-exports itself. *)
Theorem exportCommand_on_barrel_exports_itself (h : Host) (segs : list string)
    (workspaceUri : Uri) (others : list Uri) (active : TextDocument)
    (content : string) :
  Forall (λ s, segmentOk s = true) segs →
  workspaceFolders h = Some (workspaceUri :: others) →
  activeTextEditor h = Some active →
  path (uri active) = absPath (segs ++ ["index.ts"]) →
  fs h !! fileUri (segs ++ ["index.ts"]) = Some (File content) →
  findIndex h = Returned h (Some (fileUri (segs ++ ["index.ts"])))
  ∧ getRelativePath (fileUri (segs ++ ["index.ts"])) h = Some "/index"
  ∧ fs (hostOf (exportCommand h)) !! fileUri (segs ++ ["index.ts"])
    = Some (File (content +:+ "export * from './index';")).
Proof.
  intros Hsegs Hws Hed Hpath Hfile.
  assert (barrelOf (fs h) workspaceUri active = fileUri (segs ++ ["index.ts"]))
    as Hbarrel.
  { unfold barrelOf, candidateOf. rewrite Hpath.
    rewrite join_sibling, file_index by done.
    rewrite findIndexLoop_step. cbn [negb andb bool_decide]. cbv zeta.
    rewrite bool_decide_eq_true_2 by lia. cbv iota.
    rewrite with_path_index by done.
    unfold HostApi.stat at 1. rewrite Hfile.
    rewrite findIndexLoop_step. by cbn. }
  assert (specifierOf active (fileUri (segs ++ ["index.ts"])) = "/index") as Hspec.
  { unfold specifierOf, fileUri. cbn [path]. rewrite Hpath, replace_self.
    rewrite absPath_app.
    change (absPath ["index.ts"]) with "/index.ts".
    by rewrite basename_index_ts. }
  split; [by rewrite (findIndex_active h _ _ _ Hws Hed), Hbarrel|].
  split; [by rewrite (getRelativePath_active h _ _ Hed), Hspec|].
  rewrite (exportCommand_run h _ _ _ Hws Hed). cbv zeta.
  rewrite Hbarrel, Hfile, Hspec. simpl. apply lookup_insert_eq.
Qed.

Lemma exportCommand_on_barrel_exports_itself_witness :
  findIndex (hostOf (exportCommand barrelHost))
  = Returned (hostOf (exportCommand barrelHost))
             (Some (fileUri (["ws"; "a"] ++ ["index.ts"])))
  ∧ getRelativePath (fileUri (["ws"; "a"] ++ ["index.ts"]))
                    (hostOf (exportCommand barrelHost)) = Some "/index"
  ∧ fs (hostOf (exportCommand (hostOf (exportCommand barrelHost))))
      !! fileUri (["ws"; "a"] ++ ["index.ts"])
    = Some (File ((barrelText +:+ "export * from './b/Foo';")
                  +:+ "export * from './index';")).
Proof.
  apply (exportCommand_on_barrel_exports_itself
           (hostOf (exportCommand barrelHost)) ["ws"; "a"] (fileUri ["ws"]) []
           (mkTextDocument (fileUri ["ws"; "a"; "index.ts"]) "/ws/a/index.ts"
                           (barrelText +:+ "export * from './b/Foo';"))).
  - repeat constructor.
  - reflexivity.
  - vm_compute. reflexivity.
  - reflexivity.
  - vm_compute. reflexivity.
Defined.

Section Occurrences.
Implicit Types s p : string.

Lemma indexOf_empty s : JsString.indexOf s "" = Some 0.
Proof. unfold JsString.indexOf. by destruct s. Qed.

(** An occurrence anywhere makes [indexOf] succeed. *)
Lemma indexOf_of_occurrence s p m :
  String.substring m (String.length p) s = p → is_Some (JsString.indexOf s p).
Proof.
  intros Hocc. destruct (decide (p = "")) as [->|Hp].
  { rewrite indexOf_empty. by eexists. }
  unfold JsString.indexOf. destruct (String.index 0 p s) as [i|] eqn:E; [by eexists|].
  exfalso. apply (String.index_correct3 0 m p s E Hp); [lia|done].
Qed.

Lemma indexOf_middle s p t : is_Some (JsString.indexOf (s +:+ p +:+ t) p).
Proof.
  apply (indexOf_of_occurrence _ _ (String.length s)).
  by rewrite substring_app_drop, substring_app_take.
Qed.

Lemma indexOf_cons c s p :
  is_Some (JsString.indexOf s p) → is_Some (JsString.indexOf (String c s) p).
Proof.
  intros [i Hi]. apply indexOf_first in Hi as [Hocc _].
  by apply (indexOf_of_occurrence _ _ (S i)).
Qed.

Lemma referenceResolution_contains s p :
  is_Some (JsString.indexOf s p) →
  is_Some (JsString.indexOf (UriOps.referenceResolution "file" s) p).
Proof.
  intros Hs. unfold UriOps.referenceResolution.
  destruct (decide _) as [_|Hn]; [|done].
  destruct (decide (s = "")) as [->|_].
  - destruct Hs as [i Hi]. apply indexOf_first in Hi as [Hocc _].
    destruct p; [|by destruct i]. rewrite indexOf_empty. by eexists.
  - destruct (JsString.startsWithSlash s); [done|]. by apply indexOf_cons.
Qed.

End Occurrences.

Section WalkExt.
Variable files files' : gmap Uri FsEntry.
Variable workspacePath : string.
Hypothesis same_stat : ∀ u, HostApi.stat files u = HostApi.stat files' u.

(** The walk reads the file system through [stat] only. *)
Lemma findIndexLoop_stat_ext remaining :
  ∀ found iteration indexPath indexUri probes,
    100 - iteration = remaining →
    findIndexLoop files workspacePath found iteration indexPath indexUri probes
    = findIndexLoop files' workspacePath found iteration indexPath indexUri probes.
Proof using same_stat.
  induction remaining as [|k IH];
    intros found iteration indexPath indexUri probes Hk.
  - rewrite !(findIndexLoop_step _ _ found iteration).
    rewrite bool_decide_eq_false_2 by lia. by rewrite andb_false_r.
  - rewrite !(findIndexLoop_step _ _ found iteration).
    destruct found; [done|].
    rewrite bool_decide_eq_true_2 by lia. cbn [negb andb]. cbv zeta.
    rewrite <- same_stat.
    destruct (HostApi.stat files _).
    + by rewrite !(findIndexLoop_step _ _ true).
    + destruct (JsString.indexOf _ workspacePath); [|done]. apply IH. lia.
Qed.

(** The walk stays where the workspace path occurs: started on a
    candidate that contains it, it ends on a URI whose path contains it. *)
Lemma findIndexLoop_inside remaining :
  ∀ iteration indexPath indexUri probes,
    100 - iteration = remaining →
    iteration < 100 →
    scheme indexUri = "file" →
    is_Some (JsString.indexOf indexPath workspacePath) →
    is_Some (JsString.indexOf
               (path (walk_indexUri
                        (findIndexLoop files workspacePath false iteration
                                       indexPath indexUri probes)))
               workspacePath).
Proof.
  induction remaining as [|k IH];
    intros iteration indexPath indexUri probes Hk Hlt Hs Hin; [lia|].
  rewrite findIndexLoop_step.
  rewrite bool_decide_eq_true_2 by lia. cbn [negb andb]. cbv zeta.
  assert (is_Some (JsString.indexOf
                     (path (UriOps.with_path indexUri indexPath)) workspacePath))
    as Hin'.
  { unfold UriOps.with_path. cbn [path]. rewrite Hs.
    by apply referenceResolution_contains. }
  destruct (HostApi.stat files _).
  - rewrite findIndexLoop_step. by cbn.
  - destruct (JsString.indexOf (upward _) workspacePath) as [i|] eqn:Hup; [|by cbn].
    destruct (decide (S iteration < 100)) as [Hlt'|Hge].
    + apply IH; [lia|done| |by rewrite Hup].
      unfold UriOps.with_path. by cbn.
    + rewrite findIndexLoop_step. rewrite bool_decide_eq_false_2 by lia. by cbn.
Qed.

End WalkExt.

(** X13. The round trip of the extension: after the export command has
    returned and the user is back on the file that was active, a scan of
    any document that is not a barrel file publishes the empty marker set:
    the barrel now contains the file's specifier and the hint is gone. *)
Theorem export_then_scan_suppressed (h h' : Host) (workspaceUri : Uri)
    (others : list Uri) (active doc : TextDocument) :
  workspaceFolders h = Some (workspaceUri :: others) →
  activeTextEditor h = Some active →
  exportCommand h = Returned h' tt →
  ¬ isBarrel doc →
  let back := mkHost (workspaceFolders h') (Some active) (fs h')
                     (exportThisDiagnostics h') (errorMessages h') in
  refreshDiagnostics doc back = HostApi.diagnosticsSet (uri doc) [] back.
Proof.
  intros Hws Hed Hrun Hnb back.
  rewrite (exportCommand_run h _ _ _ Hws Hed) in Hrun. cbv zeta in Hrun.
  destruct (fs h !! barrelOf (fs h) workspaceUri active) as [[content|]|] eqn:Hopen;
    [|done..].
  injection Hrun as <-. subst back. cbn [workspaceFolders fs exportThisDiagnostics
                                         errorMessages].
  set (B := barrelOf (fs h) workspaceUri active) in *.
  set (text' := content +:+ "export * from '." +:+ specifierOf active B +:+ "';").
  set (back := mkHost _ _ _ _ _).
  assert (barrelOf (fs back) workspaceUri active = B) as HB.
  { assert (∀ u, HostApi.stat (fs back) u = HostApi.stat (fs h) u) as Hstat.
    { intros u. unfold HostApi.stat. simpl.
      destruct (decide (u = B)) as [->|Hne].
      - by rewrite lookup_insert_eq, Hopen.
      - by rewrite lookup_insert_ne. }
    unfold B, barrelOf. f_equal.
    by apply (findIndexLoop_stat_ext (fs back) (fs h) _ Hstat 100). }
  assert (findIndex back = Returned back (Some B)) as Hfind.
  { rewrite <- HB. by apply (findIndex_active back _ others). }
  assert (fs back !! B = Some (File text')) as Hopen' by apply lookup_insert_eq.
  rewrite (refreshDiagnostics_run back B (specifierOf active B) text'
             Hfind (getRelativePath_active back B active eq_refl) Hopen' doc Hnb).
  destruct (indexOf_middle (content +:+ "export * from '.") (specifierOf active B) "';")
    as [i Hi].
  subst text'. rewrite sapp_assoc in Hi. by rewrite Hi.
Qed.

Lemma export_then_scan_suppressed_witness :
  let back := mkHost (workspaceFolders (hostOf (exportCommand barrelHost)))
                     (Some fooDocument) (fs (hostOf (exportCommand barrelHost)))
                     (exportThisDiagnostics (hostOf (exportCommand barrelHost)))
                     (errorMessages (hostOf (exportCommand barrelHost))) in
  refreshDiagnostics fooDocument back
  = HostApi.diagnosticsSet (uri fooDocument) [] back.
Proof.
  apply (export_then_scan_suppressed barrelHost (hostOf (exportCommand barrelHost))
           (fileUri ["ws"]) [] fooDocument fooDocument).
  - reflexivity.
  - reflexivity.
  - vm_compute. reflexivity.
  - vm_compute. discriminate.
Defined.

(** X14. The walk does not leave the workspace folder: when the first
    candidate, the [index.ts] next to the active file, has a path that
    contains the path of the workspace folder, the URI [findIndex] returns
    has such a path too. *)
Theorem findIndex_stays_in_workspace (h : Host) (workspaceUri : Uri)
    (others : list Uri) (active : TextDocument) :
  workspaceFolders h = Some (workspaceUri :: others) →
  activeTextEditor h = Some active →
  is_Some (JsString.indexOf (candidateOf active) (path workspaceUri)) →
  ∃ indexUri,
    findIndex h = Returned h (Some indexUri)
    ∧ is_Some (JsString.indexOf (path indexUri) (path workspaceUri)).
Proof.
  intros Hws Hed Hin. exists (barrelOf (fs h) workspaceUri active).
  split; [by apply (findIndex_active h _ others)|].
  unfold barrelOf. apply (findIndexLoop_inside _ _ 100); try done; [lia|].
  assert (indexPathOk (candidateOf active)) as Hp.
  { exact (join_indexPathOk [path (uri active)]). }
  by destruct (file_indexPathOk _ Hp) as (Hs & _).
Qed.

Lemma findIndex_stays_in_workspace_witness :
  ∃ indexUri,
    findIndex noIndexHost = Returned noIndexHost (Some indexUri)
    ∧ is_Some (JsString.indexOf (path indexUri) (path (fileUri ["ws"]))).
Proof.
  apply (findIndex_stays_in_workspace noIndexHost (fileUri ["ws"]) [] fooDocument).
  - reflexivity.
  - reflexivity.
  - vm_compute. by eexists.
Defined.

(** * The earlier version *)

Lemma collectDiagnostics_hints doc lines :
  ∀ lineIndex diagnostics,
    Earlier.collectDiagnostics doc lineIndex lines diagnostics
    = Some (diagnostics ++ exportHints lineIndex lines).
Proof.
  induction lines as [|l lines IH]; intros k ds; simpl.
  - by rewrite app_nil_r.
  - unfold JsString.includes, Earlier.createDiagnostic.
    destruct (JsString.indexOf l EXPORT) as [index|]; rewrite IH; [|done].
    by rewrite <- app_assoc.
Qed.

(** X15. The earlier scanner never fails and knows no exception: for every
    document, [index.ts] included, and every host, whatever the workspace
    and the barrel files are, it replaces the document's markers by one
    marker for each line that contains [export], at the first occurrence
    of it on the line. *)
Theorem earlier_refreshDiagnostics_marks_all (h : Host) (doc : TextDocument) :
  Earlier.refreshDiagnostics doc h
  = HostApi.diagnosticsSet (uri doc)
      (exportHints 0 (Document.splitLines (text doc))) h
  ∧ ∀ i lineText,
      Document.splitLines (text doc) !! i = Some lineText →
      onLine i (exportHints 0 (Document.splitLines (text doc)))
      = match JsString.indexOf lineText EXPORT with
        | Some index => [exportDiagnostic i index]
        | None => []
        end.
Proof.
  split.
  - unfold Earlier.refreshDiagnostics. by rewrite collectDiagnostics_hints.
  - intros i lineText Hi. exact (onLine_exportHints 0 _ i lineText Hi).
Qed.

(** The earlier handler, once the walk is made. *)
Lemma earlier_exportCommand_run h workspaceUri others active :
  workspaceFolders h = Some (workspaceUri :: others) →
  activeTextEditor h = Some active →
  Earlier.exportCommand h =
  if walk_found (walkOf (fs h) workspaceUri active) then
    match HostApi.openTextDocument (barrelOf (fs h) workspaceUri active) h with
    | Returned h1 textDocument =>
        (await e := HostApi.showTextDocument textDocument in
         HostApi.editInsert e
           (mkPosition (Document.lineCount textDocument) 0)
           ("export * from '."
            +:+ specifierOf active (barrelOf (fs h) workspaceUri active)
            +:+ "';")) h1
    | Rejected h1 error =>
        HostApi.showErrorMessage "Error inserting export snippet." h1
    end
  else HostApi.showErrorMessage "Unable to find an index.ts file to export to" h.
Proof.
  intros Hws Hed. unfold Earlier.exportCommand. rewrite Hws, Hed. cbv zeta.
  fold (candidateOf active). fold (walkOf (fs h) workspaceUri active).
  change (walk_indexUri (walkOf (fs h) workspaceUri active))
    with (barrelOf (fs h) workspaceUri active).
  destruct (walk_found _); [|done]. cbn [negb].
  unfold specifierOf. by rewrite !sapp_assoc.
Qed.

(** X16. Where the two versions of the command part: with a workspace
    folder and an active file but no [index.ts] to be found, the earlier
    handler shows "Unable to find an index.ts file to export to" and
    changes nothing else, while the current handler shows no message and
    rejects. *)
Theorem earlier_exportCommand_reports_missing_index (h : Host)
    (workspaceUri : Uri) (others : list Uri) (active : TextDocument) :
  workspaceFolders h = Some (workspaceUri :: others) →
  activeTextEditor h = Some active →
  fs h !! barrelOf (fs h) workspaceUri active = None →
  Earlier.exportCommand h
  = HostApi.showErrorMessage "Unable to find an index.ts file to export to" h
  ∧ exportCommand h = Rejected h "cannot open the document".
Proof.
  intros Hws Hed Hnone. split.
  - rewrite (earlier_exportCommand_run h _ _ _ Hws Hed).
    unfold walkOf.
    rewrite (findIndexLoop_found_stat (fs h) (path workspaceUri) 100)
      by (lia || (left; lia)).
    unfold HostApi.stat. fold (candidateOf active).
    change (walk_indexUri (findIndexLoop _ _ _ _ _ _ _))
      with (barrelOf (fs h) workspaceUri active).
    by rewrite Hnone.
  - rewrite (exportCommand_run h _ _ _ Hws Hed). cbv zeta. by rewrite Hnone.
Qed.

Lemma earlier_exportCommand_reports_missing_index_witness :
  Earlier.exportCommand noIndexHost
  = HostApi.showErrorMessage "Unable to find an index.ts file to export to"
      noIndexHost
  ∧ exportCommand noIndexHost = Rejected noIndexHost "cannot open the document".
Proof.
  apply (earlier_exportCommand_reports_missing_index noIndexHost
           (fileUri ["ws"]) [] fooDocument).
  - reflexivity.
  - reflexivity.
  - vm_compute. reflexivity.
Defined.

(** X17. Where the two versions agree: when the walk ends on a file that
    can be opened, the earlier handler and the current one leave the same
    host behind, the barrel's text followed by the same statement. *)
Theorem earlier_exportCommand_agrees (h : Host) (workspaceUri : Uri)
    (others : list Uri) (active : TextDocument) (content : string) :
  workspaceFolders h = Some (workspaceUri :: others) →
  activeTextEditor h = Some active →
  fs h !! barrelOf (fs h) workspaceUri active = Some (File content) →
  Earlier.exportCommand h = exportCommand h.
Proof.
  intros Hws Hed Hopen.
  rewrite (earlier_exportCommand_run h _ _ _ Hws Hed).
  rewrite (exportCommand_run h _ _ _ Hws Hed). cbv zeta.
  unfold walkOf.
  rewrite (findIndexLoop_found_stat (fs h) (path workspaceUri) 100)
    by (lia || (left; lia)).
  unfold HostApi.stat. fold (candidateOf active).
  change (walk_indexUri (findIndexLoop _ _ _ _ _ _ _))
    with (barrelOf (fs h) workspaceUri active).
  rewrite Hopen. unfold HostApi.openTextDocument. rewrite Hopen.
  unfold bind, HostApi.showTextDocument, HostApi.editInsert. simpl.
  destruct (decide (_ = _)); [|done].
  unfold Document.lineCount. simpl. by rewrite insert_at_end.
Qed.

Lemma earlier_exportCommand_agrees_witness :
  Earlier.exportCommand barrelHost = exportCommand barrelHost.
Proof.
  apply (earlier_exportCommand_agrees barrelHost (fileUri ["ws"]) [] fooDocument
           barrelText).
  - reflexivity.
  - reflexivity.
  - vm_compute. reflexivity.
Defined.
